(** * sockeye/convolution.py : the Convolution-GLU block

    The Python code builds an MXNet symbol graph.  The embedding has two
    layers:

    - the Python code itself ([ConvolutionConfig.__init__],
      [ConvolutionBlock.__init__], [ConvolutionBlock.__call__]) as functions
      in a small monad that threads the list of MXNet operators that have
      returned a symbol so far and can raise a Python exception;
    - the MXNet symbols the code builds, as an inductive type [Symbol], with
      MXNet's shape inference ([infer_shape]) and the value of every entry
      of the tensor a symbol denotes ([value]) over an abstract scalar type.
*)

From Stdlib Require Import ZArith List String Bool Lia DecimalString.
Import ListNotations.

Local Open Scope string_scope.
Local Open Scope list_scope.
Local Open Scope Z_scope.

(** ** Python exceptions and the graph-building monad *)

(** [ValueError] and [OverflowError] are Python's.  The exception of
    [utils.check_condition] is the spec's "invalid-configuration error".
    [MXNetError] is what an [mx.sym] operator raises when it rejects its
    arguments at symbol creation; its text is MXNet's and is not modelled. *)
Inductive exn : Type :=
| InvalidConfigurationError (msg : string)
| ValueError (msg : string)
| OverflowError (msg : string)
| MXNetError.

Inductive result (A : Type) : Type :=
| Ok (a : A)
| Raise (e : exn).
Arguments Ok {A} a.
Arguments Raise {A} e.

(** The names of the [mx.sym] operators that have returned a symbol so far,
    oldest first.  An operator that raises leaves no entry. *)
Definition trace : Type := list string.

Definition M (A : Type) : Type := trace -> result A * trace.

Definition ret {A} (a : A) : M A := fun tr => (Ok a, tr).

Definition raise {A} (e : exn) : M A := fun tr => (Raise e, tr).

Definition bind {A B} (m : M A) (k : A -> M B) : M B :=
  fun tr =>
    match m tr with
    | (Ok a, tr') => k a tr'
    | (Raise e, tr') => (Raise e, tr')
    end.

Notation "x <- m ;; k" := (bind m (fun x => k))
  (at level 61, m at next level, right associativity).
Notation "m ;;; k" := (bind m (fun _ => k))
  (at level 61, right associativity).

(** One operator invocation that succeeds: the operator's name is logged and
    the new symbol is returned. *)
Definition invoke {A} (op : string) (a : A) : M A :=
  fun tr => (Ok a, tr ++ [op]).

Definition lift {A} (r : result A) : M A := fun tr => (r, tr).

(** ** MXNet symbols *)

(** The operators [convolution.py] uses, with the arguments it passes.
    Integers that come from Python [int]s are in [Z]; axes, which the source
    writes as literals, are in [nat].  [split_output d n a i] is the [i]-th of
    the [n] outputs of [mx.sym.split(d, num_outputs=n, axis=a)]. *)
Inductive Symbol : Type :=
| Var (name : string)
| swapaxes (data : Symbol) (dim1 dim2 : nat)
| SequenceMask (data sequence_length : Symbol)
               (use_sequence_length : bool) (value : Z)
| transpose (data : Symbol) (axes : list nat)
| Convolution (data weight bias : Symbol) (pad : option (list Z))
              (kernel : list Z) (num_filter : Z) (layout : string)
| slice_axis (data : Symbol) (axis : nat) (begin end_ : Z)
| split_output (data : Symbol) (num_outputs axis index : nat)
| broadcast_mul (lhs rhs : Symbol)
| Activation (data : Symbol) (act_type : string).

(** The element-wise activations of [mx.sym.Activation]. *)
Inductive act_kind : Type := relu | sigmoid | tanh | softrelu.

Definition act_of_string (s : string) : option act_kind :=
  if String.eqb s "relu" then Some relu
  else if String.eqb s "sigmoid" then Some sigmoid
  else if String.eqb s "tanh" then Some tanh
  else if String.eqb s "softrelu" then Some softrelu
  else None.

Module mx_sym.

Definition Variable_ (name : string) : M Symbol :=
  invoke "Variable" (Var name).

Definition swapaxes (data : Symbol) (dim1 dim2 : nat) : M Symbol :=
  invoke "swapaxes" (swapaxes data dim1 dim2).

Definition SequenceMask (data sequence_length : Symbol)
           (use_sequence_length : bool) (value : Z) : M Symbol :=
  invoke "SequenceMask"
         (SequenceMask data sequence_length use_sequence_length value).

Definition transpose (data : Symbol) (axes : list nat) : M Symbol :=
  invoke "transpose" (transpose data axes).

(** The operator parses its parameters when the symbol is created: it
    rejects an explicit [pad=None] (a shape is expected; only an omitted
    [pad] means no padding) and a [num_filter] below 1. *)
Definition Convolution (data weight bias : Symbol) (pad : option (list Z))
           (kernel : list Z) (num_filter : Z) (layout : string) : M Symbol :=
  match pad with
  | None => raise MXNetError
  | Some _ =>
      if (num_filter <=? 0)%Z then raise MXNetError
      else invoke "Convolution"
                  (Convolution data weight bias pad kernel num_filter layout)
  end.

Definition slice_axis (data : Symbol) (axis : nat) (begin end_ : Z)
  : M Symbol :=
  invoke "slice_axis" (slice_axis data axis begin end_).

(** A symbol with [num_outputs] outputs; iterating over it yields them in
    order. *)
Definition split (data : Symbol) (num_outputs axis : nat)
  : M (list Symbol) :=
  invoke "split"
         (map (split_output data num_outputs axis) (seq 0 num_outputs)).

Definition broadcast_mul (lhs rhs : Symbol) : M Symbol :=
  invoke "broadcast_mul" (broadcast_mul lhs rhs).

(** [act_type] is an enumeration: a name MXNet does not know is rejected
    when the symbol is created. *)
Definition Activation (data : Symbol) (act_type : string) : M Symbol :=
  match act_of_string act_type with
  | None => raise MXNetError
  | Some _ => invoke "Activation" (Activation data act_type)
  end.

End mx_sym.

(** ** utils *)

Module utils.

(** Modelled from the spec: [utils.check_condition] is not among the
    sources.  The spec calls its failure an invalid-configuration error,
    raised synchronously when the condition does not hold. *)
Definition check_condition (condition : bool) (error_message : string)
  : result unit :=
  if condition then Ok tt else Raise (InvalidConfigurationError error_message).

End utils.

(** Python's ["%d" % n]. *)
Definition format_d (n : Z) : string := NilZero.string_of_int (Z.to_int n).

(** The integer [a] rounded to 53 significant bits, to nearest and ties to
    even: the integer part of the significand of the binary64 nearest to
    [a], scaled back. *)
Definition binary64_round (a : Z) : Z :=
  let m := Z.abs a in
  let drop := Z.log2 m - 52 in
  if drop <=? 0 then a
  else
    let q := Z.shiftr m drop in
    let r := Z.land m (Z.ones drop) in
    let half := Z.shiftl 1 (drop - 1) in
    let q' := if (half <? r) || ((half =? r) && Z.odd q) then q + 1 else q in
    Z.sgn a * Z.shiftl q' drop.

(** Python's [a / 2] on an [int] is the binary64 nearest to the quotient,
    that is [binary64_round a / 2], and raises [OverflowError] when that is
    2^1024 or more in absolute value. *)
Definition true_div_overflows (a : Z) : bool :=
  2 ^ 1025 <=? Z.abs (binary64_round a).

(** Python's [int(a / 2)]: true division in binary64, then truncation toward
    zero.  It is the exact quotient for every [a] up to 2^53 in absolute
    value. *)
Definition int_half (a : Z) : Z := Z.quot (binary64_round a) 2.

(** Python's [x in xs] on a list of strings. *)
Definition str_in (x : string) (xs : list string) : bool :=
  existsb (String.eqb x) xs.

(** ** ConvolutionConfig *)

Module ConvolutionConfig.

Record t : Type := Build
  { kernel_width : Z;
    num_hidden : Z;
    act_type : string }.

Section WithConstants.

(** [constants.py] is not among the sources: [C.GLU] and
    [C.CNN_ACTIVATION_TYPES] are parameters. *)
Variable GLU : string.
Variable CNN_ACTIVATION_TYPES : list string.

(** [act_type] is [None] when the caller leaves the default.  The base class
    [Config] is not among the sources; its [__init__] is taken to do
    nothing. *)
Definition __init__ (kernel_width_ num_hidden_ : Z)
           (act_type_ : option string) : result t :=
  let act := match act_type_ with Some a => a | None => GLU end in
  match utils.check_condition (str_in act CNN_ACTIVATION_TYPES)
                              ("Unknown activation " ++ act ++ ".")%string with
  | Raise e => Raise e
  | Ok _ => Ok (Build kernel_width_ num_hidden_ act)
  end.

End WithConstants.

End ConvolutionConfig.

(** ** ConvolutionBlock *)

Module ConvolutionBlock.

Record t : Type := Build
  { prefix : string;
    pad_type : string;
    config : ConvolutionConfig.t;
    conv_weight : Symbol;
    conv_bias : Symbol }.

Definition __init__ (config_ : ConvolutionConfig.t)
           (pad_type_ prefix_ : string) : M t :=
  w <- mx_sym.Variable_ (prefix_ ++ "conv_weight")%string ;;
  b <- mx_sym.Variable_ (prefix_ ++ "conv_bias")%string ;;
  ret (Build prefix_ pad_type_ config_ w b).

Definition __call__ (self : t) (data data_length : Symbol) (seq_len : Z)
           (skip_padding : bool) : M Symbol :=
  let kernel_width := ConvolutionConfig.kernel_width (config self) in
  padding <-
    (if skip_padding then ret None
     else if String.eqb (pad_type self) "left" then
            ret (Some [kernel_width - 1])
     else if String.eqb (pad_type self) "centered" then
            lift (utils.check_condition
                    (kernel_width mod 2 =? 1)%Z
                    ("Only odd kernel widths supported, but got "
                       ++ format_d kernel_width)%string) ;;;
            if true_div_overflows (kernel_width - 1)
            then raise (OverflowError
                          "integer division result too large for a float")
            else ret (Some [int_half (kernel_width - 1)])
     else raise (ValueError ("Unknown pad type " ++ pad_type self)%string)) ;;
  let num_hidden :=
    if String.eqb (ConvolutionConfig.act_type (config self)) "glu"
    then 2 * ConvolutionConfig.num_hidden (config self)
    else ConvolutionConfig.num_hidden (config self) in
  data <- mx_sym.swapaxes data 0 1 ;;
  data <- mx_sym.SequenceMask data data_length true 0 ;;
  data <- mx_sym.transpose data [1; 2; 0]%nat ;;
  data_conv <- mx_sym.Convolution data (conv_weight self) (conv_bias self)
                 padding [kernel_width] num_hidden "NCW" ;;
  data_conv <-
    (if negb skip_padding && String.eqb (pad_type self) "left"
     then mx_sym.slice_axis data_conv 2 0 seq_len
     else ret data_conv) ;;
  block_output <-
    (if String.eqb (ConvolutionConfig.act_type (config self)) "glu" then
       (* gate_a, gate_b = mx.sym.split(...): the unpacking of the two
          outputs *)
       gates <- mx_sym.split data_conv 2 1 ;;
       match gates with
       | [gate_a; gate_b] =>
           sig <- mx_sym.Activation gate_b "sigmoid" ;;
           mx_sym.broadcast_mul gate_a sig
       | _ => raise (ValueError "wrong number of values to unpack")
       end
     else
       mx_sym.Activation data_conv
                         (ConvolutionConfig.act_type (config self))) ;;
  block_output <- mx_sym.swapaxes block_output 1 2 ;;
  ret block_output.

End ConvolutionBlock.

(** ** What the symbols denote *)

Local Open Scope nat_scope.

Definition shape : Type := list nat.

(** The scalars of a tensor.  Tensor entries are floating-point numbers in
    MXNet; the development is generic in them and uses no law of the
    arithmetic.  [to_index] is the cast of a sequence length to an index. *)
Class Scalar (R : Type) : Type :=
  { of_Z : Z -> R;
    to_index : R -> Z;
    add : R -> R -> R;
    mul : R -> R -> R;
    act_fn : act_kind -> R -> R }.

Record NDArray (R : Type) : Type :=
  { nd_shape : shape;
    nd_at : list nat -> R }.
Arguments nd_shape {R} _.
Arguments nd_at {R} _ _.

Fixpoint update {A} (i : nat) (x : A) (l : list A) : list A :=
  match l, i with
  | [], _ => []
  | _ :: l', O => x :: l'
  | y :: l', S i' => y :: update i' x l'
  end.

(** Exchange of the entries at [i] and [j]. *)
Definition swap {A} (i j : nat) (l : list A) : option (list A) :=
  match nth_error l i, nth_error l j with
  | Some a, Some b => Some (update i b (update j a l))
  | _, _ => None
  end.

Fixpoint all_some {A} (l : list (option A)) : option (list A) :=
  match l with
  | [] => Some []
  | Some a :: l' =>
      match all_some l' with Some r => Some (a :: r) | None => None end
  | None :: _ => None
  end.

Fixpoint index_of (j : nat) (l : list nat) : option nat :=
  match l with
  | [] => None
  | a :: l' =>
      if Nat.eqb a j then Some O
      else match index_of j l' with Some i => Some (S i) | None => None end
  end.

Definition is_permutation (axes : list nat) : bool :=
  forallb (fun j => match index_of j axes with Some _ => true | None => false end)
          (seq 0 (List.length axes)).

(** [permute axes l] has [l]'s entry [axes[i]] at position [i]. *)
Definition permute {A} (axes : list nat) (l : list A) : option (list A) :=
  if Nat.eqb (List.length axes) (List.length l) && is_permutation axes
  then all_some (map (nth_error l) axes)
  else None.

(** [unpermute axes l] has [l]'s entry [i] at position [axes[i]]. *)
Definition unpermute {A} (axes : list nat) (l : list A) : option (list A) :=
  all_some (map (fun j => match index_of j axes with
                          | Some i => nth_error l i
                          | None => None
                          end)
                (seq 0 (List.length axes))).

Definition pad_amount (pad : option (list Z)) : option Z :=
  match pad with
  | Some [p] => Some p
  | _ => None
  end.

(** One-dimensional convolution in layout NCW, stride and dilation 1: data
    (N, C, W), weight (num_filter, C, k), bias (num_filter,); the output is
    (N, num_filter, W + 2p - k + 1).  A symbol with [pad=None] cannot be
    created and denotes nothing. *)
Definition conv1d_shape (dsh wsh bsh : shape) (pad : option (list Z))
           (kernel : list Z) (num_filter : Z) (layout : string)
  : option shape :=
  match kernel, dsh, pad_amount pad with
  | [k], [n; c; w], Some p =>
      if String.eqb layout "NCW"
         && (0 <? k)%Z && (0 <=? p)%Z && (0 <? num_filter)%Z
         && (Z.to_nat k <=? w + 2 * Z.to_nat p)
         && (if list_eq_dec Nat.eq_dec wsh [Z.to_nat num_filter; c; Z.to_nat k]
             then true else false)
         && (if list_eq_dec Nat.eq_dec bsh [Z.to_nat num_filter]
             then true else false)
      then Some [n; Z.to_nat num_filter; w + 2 * Z.to_nat p - Z.to_nat k + 1]
      else None
  | _, _, _ => None
  end.

(** Begin and end of [slice_axis] on an axis of the given size; negative
    positions count from the end, and the slice may not be empty. *)
Definition slice_bounds (size : nat) (begin end_ : Z) : option (nat * nat) :=
  let b := if (begin <? 0)%Z then (begin + Z.of_nat size)%Z else begin in
  let e := if (end_ <? 0)%Z then (end_ + Z.of_nat size)%Z else end_ in
  if (0 <=? b)%Z && (b <? e)%Z && (e <=? Z.of_nat size)%Z
  then Some (Z.to_nat b, Z.to_nat e)
  else None.

Fixpoint broadcast_shape (l r : shape) : option shape :=
  match l, r with
  | [], [] => Some []
  | a :: l', b :: r' =>
      match broadcast_shape l' r' with
      | Some s =>
          if Nat.eqb a b then Some (a :: s)
          else if Nat.eqb a 1 then Some (b :: s)
          else if Nat.eqb b 1 then Some (a :: s)
          else None
      | None => None
      end
  | _, _ => None
  end.

(** The index into an operand of shape [sh] for the index [idx] into the
    broadcast result. *)
Fixpoint broadcast_index (sh : shape) (idx : list nat) : list nat :=
  match sh, idx with
  | d :: sh', i :: idx' =>
      (if Nat.eqb d 1 then 0 else i) :: broadcast_index sh' idx'
  | _, _ => []
  end.

Fixpoint infer_shape (senv : string -> option shape) (s : Symbol)
  : option shape :=
  match s with
  | Var name => senv name
  | swapaxes d dim1 dim2 =>
      match infer_shape senv d with
      | Some sh => swap dim1 dim2 sh
      | None => None
      end
  | SequenceMask d len use_len _ =>
      match infer_shape senv d with
      | Some (t :: b :: rest) =>
          if use_len then
            match infer_shape senv len with
            | Some [b'] => if Nat.eqb b' b then Some (t :: b :: rest) else None
            | _ => None
            end
          else Some (t :: b :: rest)
      | _ => None
      end
  | transpose d axes =>
      match infer_shape senv d with
      | Some sh => permute axes sh
      | None => None
      end
  | Convolution d w b pad kernel num_filter layout =>
      match infer_shape senv d, infer_shape senv w, infer_shape senv b with
      | Some dsh, Some wsh, Some bsh =>
          conv1d_shape dsh wsh bsh pad kernel num_filter layout
      | _, _, _ => None
      end
  | slice_axis d axis begin end_ =>
      match infer_shape senv d with
      | Some sh =>
          match nth_error sh axis with
          | Some size =>
              match slice_bounds size begin end_ with
              | Some (b, e) => Some (update axis (e - b) sh)
              | None => None
              end
          | None => None
          end
      | None => None
      end
  | split_output d n axis i =>
      match infer_shape senv d with
      | Some sh =>
          match nth_error sh axis with
          | Some size =>
              if (0 <? n) && (i <? n) && Nat.eqb (size mod n) 0
              then Some (update axis (size / n) sh)
              else None
          | None => None
          end
      | None => None
      end
  | broadcast_mul l r =>
      match infer_shape senv l, infer_shape senv r with
      | Some lsh, Some rsh => broadcast_shape lsh rsh
      | _, _ => None
      end
  | Activation d act =>
      match act_of_string act with
      | Some _ => infer_shape senv d
      | None => None
      end
  end.

Section Values.

Context {R : Type} {SR : Scalar R}.

Definition zero : R := of_Z 0.

Definition sum (l : list R) : R := fold_right add zero l.

(** Entry [u] of a row of length [w] padded with [p] zeros on each side. *)
Definition padded (row : nat -> R) (p w u : nat) : R :=
  if (p <=? u) && (u <? p + w) then row (u - p) else zero.

Definition conv1d_at (x wt b : list nat -> R) (c w k p : nat)
           (idx : list nat) : R :=
  match idx with
  | [n; f; t] =>
      add (sum (flat_map
                  (fun ci =>
                     map (fun j => mul (padded (fun u => x [n; ci; u]) p w (t + j))
                                       (wt [f; ci; j]))
                         (seq 0 k))
                  (seq 0 c)))
          (b [f])
  | _ => zero
  end.

Definition env : Type := string -> option (NDArray R).

Definition shapes (e : env) : string -> option shape :=
  fun name => option_map nd_shape (e name).

(** The entry at [idx] of the tensor [s] denotes; meaningful where
    [infer_shape] succeeds and [idx] is within the shape. *)
Fixpoint value (e : env) (s : Symbol) (idx : list nat) : R :=
  match s with
  | Var name =>
      match e name with Some a => nd_at a idx | None => zero end
  | swapaxes d dim1 dim2 =>
      match swap dim1 dim2 idx with
      | Some idx' => value e d idx'
      | None => zero
      end
  | SequenceMask d len use_len v =>
      if use_len then
        match idx with
        | t :: b :: _ =>
            if (Z.of_nat t <? to_index (value e len [b]))%Z
            then value e d idx
            else of_Z v
        | _ => zero
        end
      else value e d idx
  | transpose d axes =>
      match unpermute axes idx with
      | Some idx' => value e d idx'
      | None => zero
      end
  | Convolution d w b pad kernel _ _ =>
      match infer_shape (shapes e) d, kernel, pad_amount pad with
      | Some [_; c; wd], [k], Some p =>
          conv1d_at (value e d) (value e w) (value e b)
                    c wd (Z.to_nat k) (Z.to_nat p) idx
      | _, _, _ => zero
      end
  | slice_axis d axis begin end_ =>
      match infer_shape (shapes e) d with
      | Some sh =>
          match nth_error sh axis, nth_error idx axis with
          | Some size, Some i =>
              match slice_bounds size begin end_ with
              | Some (b, _) => value e d (update axis (i + b) idx)
              | None => zero
              end
          | _, _ => zero
          end
      | None => zero
      end
  | split_output d n axis i =>
      match infer_shape (shapes e) d with
      | Some sh =>
          match nth_error sh axis, nth_error idx axis with
          | Some size, Some j =>
              value e d (update axis (j + i * (size / n)) idx)
          | _, _ => zero
          end
      | None => zero
      end
  | broadcast_mul l r =>
      match infer_shape (shapes e) l, infer_shape (shapes e) r with
      | Some lsh, Some rsh =>
          mul (value e l (broadcast_index lsh idx))
              (value e r (broadcast_index rsh idx))
      | _, _ => zero
      end
  | Activation d act =>
      match act_of_string act with
      | Some a => act_fn a (value e d idx)
      | None => zero
      end
  end.

End Values.

(** ** Symbolic scalars

    The free instance of [Scalar]: entries are expressions over integer
    constants, so that the values of a graph can be computed and read. *)

Inductive term : Type :=
| Const (z : Z)
| Add (a b : term)
| Mul (a b : term)
| Act (k : act_kind) (a : term).

#[export] Instance term_scalar : Scalar term :=
  { of_Z := Const;
    to_index := fun t => match t with Const z => z | _ => 0%Z end;
    add := Add;
    mul := Mul;
    act_fn := Act }.

(** ** The parts of the graph a call builds *)

Import ConvolutionBlock.

Definition kernel_width_of (self : ConvolutionBlock.t) : Z :=
  ConvolutionConfig.kernel_width (config self).

Definition num_hidden_of (self : ConvolutionBlock.t) : Z :=
  ConvolutionConfig.num_hidden (config self).

Definition act_type_of (self : ConvolutionBlock.t) : string :=
  ConvolutionConfig.act_type (config self).

(** The input of the convolution: the data, masked in time-major layout and
    brought to (batch, channels, time). *)
Definition masked (data data_length : Symbol) : Symbol :=
  transpose (SequenceMask (swapaxes data 0 1) data_length true 0) [1; 2; 0].

(** The number of filters the convolution is asked for. *)
Definition num_filter_of (self : ConvolutionBlock.t) : Z :=
  if String.eqb (act_type_of self) "glu"
  then (2 * num_hidden_of self)%Z
  else num_hidden_of self.

Definition convolved (self : ConvolutionBlock.t) (pad : option (list Z))
           (x : Symbol) : Symbol :=
  Convolution x (conv_weight self) (conv_bias self) pad
              [kernel_width_of self] (num_filter_of self) "NCW".

Definition glu (c : Symbol) : Symbol :=
  broadcast_mul (split_output c 2 1 0)
                (Activation (split_output c 2 1 1) "sigmoid").

Definition activated (self : ConvolutionBlock.t) (c : Symbol) : Symbol :=
  if String.eqb (act_type_of self) "glu" then glu c
  else Activation c (act_type_of self).

Definition block_output (self : ConvolutionBlock.t) (c : Symbol) : Symbol :=
  swapaxes (activated self c) 1 2.

(** The operators invoked up to the convolution, and by the activation. *)
Definition ops_conv : trace :=
  ["swapaxes"; "SequenceMask"; "transpose"; "Convolution"].

Definition ops_act (self : ConvolutionBlock.t) : trace :=
  if String.eqb (act_type_of self) "glu"
  then ["split"; "Activation"; "broadcast_mul"; "swapaxes"]
  else ["Activation"; "swapaxes"].

(** The operators that have run when the convolution is reached. *)
Definition ops_masking : trace := ["swapaxes"; "SequenceMask"; "transpose"].

(** The activation is the gated linear unit or one MXNet knows. *)
Definition supported_act (self : ConvolutionBlock.t) : Prop :=
  act_type_of self = "glu" \/ act_of_string (act_type_of self) <> None.

(** The tensors a call works on have the shapes the block expects: data
    (B, T, C), one length per batch entry, a weight of [num_filter] filters
    over C channels and the kernel width, a bias per filter. *)
Record well_shaped (senv : string -> option shape) (self : ConvolutionBlock.t)
       (data data_length : Symbol) (B T C : nat) : Prop :=
  { ws_data : infer_shape senv data = Some [B; T; C];
    ws_length : infer_shape senv data_length = Some [B];
    ws_weight : infer_shape senv (conv_weight self)
                = Some [Z.to_nat (num_filter_of self); C;
                        Z.to_nat (kernel_width_of self)];
    ws_bias : infer_shape senv (conv_bias self)
              = Some [Z.to_nat (num_filter_of self)];
    ws_kernel : (0 < kernel_width_of self)%Z;
    ws_hidden : (0 < num_hidden_of self)%Z;
    ws_act : supported_act self }.

(** ** A small block to compute with *)

Module Example.

Definition activation_types : list string :=
  ["glu"; "relu"; "sigmoid"; "softrelu"; "tanh"].

Definition block (kernel_width : Z) (pad_type act_type : string)
  : ConvolutionBlock.t :=
  ConvolutionBlock.Build "enc_" pad_type
    (ConvolutionConfig.Build kernel_width 1 act_type)
    (Var "enc_conv_weight") (Var "enc_conv_bias").

(** One sequence of three time steps and one channel, of which two steps
    are valid: the entries are 10, 11, 12; the weight of filter [f] at tap
    [j] is [100 + 10 f + j] and the bias of filter [f] is [1000 + f]. *)
Definition tensors (filters kernel_width : nat) (name : string)
  : option (NDArray term) :=
  if String.eqb name "data" then
    Some {| nd_shape := [1; 3; 1];
            nd_at := fun idx => match idx with
                                | [_; t; _] => Const (10 + Z.of_nat t)
                                | _ => Const 0
                                end |}
  else if String.eqb name "length" then
    Some {| nd_shape := [1]; nd_at := fun _ => Const 2 |}
  else if String.eqb name "enc_conv_weight" then
    Some {| nd_shape := [filters; 1; kernel_width];
            nd_at := fun idx =>
                       match idx with
                       | [f; _; j] =>
                           Const (100 + 10 * Z.of_nat f + Z.of_nat j)
                       | _ => Const 0
                       end |}
  else if String.eqb name "enc_conv_bias" then
    Some {| nd_shape := [filters];
            nd_at := fun idx => match idx with
                                | [f] => Const (1000 + Z.of_nat f)
                                | _ => Const 0
                                end |}
  else None.

(** The same tensors with the second time step of the data replaced. *)
Definition tensors' (filters kernel_width : nat) (name : string)
  : option (NDArray term) :=
  if String.eqb name "data" then
    Some {| nd_shape := [1; 3; 1];
            nd_at := fun idx => match idx with
                                | [_; 1; _] => Const 99
                                | [_; t; _] => Const (10 + Z.of_nat t)
                                | _ => Const 0
                                end |}
  else tensors filters kernel_width name.

End Example.

(** The variables met on a walk through the graph, inputs left to right. *)
Fixpoint variables (s : Symbol) : list string :=
  match s with
  | Var name => [name]
  | swapaxes d _ _ => variables d
  | SequenceMask d len use_len _ =>
      if use_len then variables d ++ variables len
      else variables d
  | transpose d _ => variables d
  | Convolution d w b _ _ _ _ =>
      variables d ++ variables w ++ variables b
  | slice_axis d _ _ _ => variables d
  | split_output d _ _ _ => variables d
  | broadcast_mul l r => variables l ++ variables r
  | Activation d _ => variables d
  end.

(** The first occurrence of each entry, in order. *)
Fixpoint first_occurrences (seen l : list string) : list string :=
  match l with
  | [] => []
  | x :: l' =>
      if str_in x seen then first_occurrences seen l'
      else x :: first_occurrences (x :: seen) l'
  end.

(** The variables a graph reads, as [Symbol.list_arguments] lists them: each
    once, in the order they are first met. *)
Definition list_arguments (s : Symbol) : list string :=
  first_occurrences [] (variables s).

(** ** Batches to compute with *)

Module Batch.

(** A batch of one-channel sequences given row by row, with their valid
    lengths, and the weight and bias of [Example.tensors]. *)
Definition tensors (rows : list (list Z)) (lengths : list Z)
           (filters kernel_width : nat) (name : string)
  : option (NDArray term) :=
  if String.eqb name "data" then
    Some {| nd_shape := [List.length rows; List.length (hd [] rows); 1];
            nd_at := fun idx => match idx with
                                | [b; t; _] => Const (nth t (nth b rows []) 0%Z)
                                | _ => Const 0
                                end |}
  else if String.eqb name "length" then
    Some {| nd_shape := [List.length lengths];
            nd_at := fun idx => match idx with
                                | [b] => Const (nth b lengths 0%Z)
                                | _ => Const 0
                                end |}
  else Example.tensors filters kernel_width name.

End Batch.

(** Unfolds a call down to the symbols it builds. *)
Ltac run_call :=
  unfold __call__, bind, ret, raise, lift, invoke,
    mx_sym.swapaxes, mx_sym.SequenceMask, mx_sym.transpose,
    mx_sym.Convolution, mx_sym.slice_axis, mx_sym.split,
    mx_sym.Activation, mx_sym.broadcast_mul, utils.check_condition,
    block_output, activated, convolved, glu, masked, ops_act, ops_conv,
    ops_masking, num_filter_of, act_type_of, kernel_width_of, num_hidden_of.

(** Settles [well_shaped] for concrete tensors. *)
Ltac shapes_ok :=
  constructor;
  [ reflexivity | reflexivity | reflexivity | reflexivity
  | reflexivity | reflexivity
  | first [ left; reflexivity | right; discriminate ] ].

(** ** What a call returns *)

(** The call, path by path.  [graph pad sliced] is what happens once the
    padding is chosen. *)
Lemma call_unfold self data len seq_len skip_padding tr :
  let graph := fun (pad : option (list Z)) (sliced : bool) =>
    let conv := convolved self pad (masked data len) in
    let conv' := if sliced then slice_axis conv 2 0 seq_len else conv in
    let ops := ops_conv ++ (if sliced then ["slice_axis"] else []) in
    if (num_filter_of self <=? 0)%Z
    then (Raise MXNetError, tr ++ ops_masking)
    else if String.eqb (act_type_of self) "glu"
         then (Ok (block_output self conv'), tr ++ ops ++ ops_act self)
         else match act_of_string (act_type_of self) with
              | Some _ =>
                  (Ok (block_output self conv'), tr ++ ops ++ ops_act self)
              | None => (Raise MXNetError, tr ++ ops)
              end in
  __call__ self data len seq_len skip_padding tr
  = if skip_padding then (Raise MXNetError, tr ++ ops_masking)
    else if String.eqb (pad_type self) "left"
         then graph (Some [kernel_width_of self - 1]%Z) true
         else if String.eqb (pad_type self) "centered"
              then if (kernel_width_of self mod 2 =? 1)%Z
                   then if true_div_overflows (kernel_width_of self - 1)
                        then (Raise
                                (OverflowError
                                   "integer division result too large for a float"),
                              tr)
                        else graph
                               (Some [int_half (kernel_width_of self - 1)])
                               false
                   else (Raise
                           (InvalidConfigurationError
                              ("Only odd kernel widths supported, but got "
                                 ++ format_d (kernel_width_of self))%string),
                         tr)
              else (Raise (ValueError
                             ("Unknown pad type " ++ pad_type self)%string),
                    tr).
Proof.
  intros graph. subst graph. run_call.
  destruct skip_padding.
  - cbn. rewrite <- ?app_assoc. reflexivity.
  - destruct (String.eqb (pad_type self) "left").
    + cbn.
      destruct (String.eqb (ConvolutionConfig.act_type (config self)) "glu").
      * destruct (_ <=? 0)%Z; cbn; rewrite <- ?app_assoc; reflexivity.
      * destruct (_ <=? 0)%Z; cbn; [rewrite <- ?app_assoc; reflexivity |].
        destruct (act_of_string _); cbn; rewrite <- ?app_assoc; reflexivity.
    + destruct (String.eqb (pad_type self) "centered"); [| reflexivity].
      cbn.
      destruct (_ mod 2 =? 1)%Z; [| reflexivity]. cbn.
      destruct (true_div_overflows _); [reflexivity |]. cbn.
      destruct (String.eqb (ConvolutionConfig.act_type (config self)) "glu").
      * destruct (_ <=? 0)%Z; cbn; rewrite <- ?app_assoc; reflexivity.
      * destruct (_ <=? 0)%Z; cbn; [rewrite <- ?app_assoc; reflexivity |].
        destruct (act_of_string _); cbn; rewrite <- ?app_assoc; reflexivity.
Qed.

Lemma creatable self :
  (0 < num_hidden_of self)%Z ->
  supported_act self ->
  (num_filter_of self <=? 0)%Z = false
  /\ (String.eqb (act_type_of self) "glu" = true
      \/ exists a, act_of_string (act_type_of self) = Some a).
Proof.
  intros Hh Hact. split.
  - apply Z.leb_gt. unfold num_filter_of. destruct (String.eqb _ _); lia.
  - destruct Hact as [Hglu | Hknown].
    + left. apply String.eqb_eq. exact Hglu.
    + right. destruct (act_of_string (act_type_of self)) as [a |];
        [eauto | contradiction].
Qed.

Lemma call_skip_padding self data len seq_len tr :
  __call__ self data len seq_len true tr
  = (Raise MXNetError, tr ++ ops_masking).
Proof. rewrite call_unfold. reflexivity. Qed.

Lemma call_left self data len seq_len tr :
  pad_type self = "left" ->
  (0 < num_hidden_of self)%Z ->
  supported_act self ->
  __call__ self data len seq_len false tr
  = (Ok (block_output self
           (slice_axis
              (convolved self (Some [kernel_width_of self - 1]%Z)
                         (masked data len))
              2 0 seq_len)),
     tr ++ ops_conv ++ ["slice_axis"] ++ ops_act self).
Proof.
  intros Hpad Hh Hact. rewrite call_unfold, Hpad.
  destruct (creatable self Hh Hact) as [-> [-> | [a Ha]]].
  - cbn. rewrite <- ?app_assoc. reflexivity.
  - cbn. rewrite Ha. rewrite <- ?app_assoc.
    destruct (String.eqb _ _); reflexivity.
Qed.

Lemma call_centered_odd self data len seq_len tr :
  pad_type self = "centered" ->
  (kernel_width_of self mod 2 = 1)%Z ->
  true_div_overflows (kernel_width_of self - 1) = false ->
  (0 < num_hidden_of self)%Z ->
  supported_act self ->
  __call__ self data len seq_len false tr
  = (Ok (block_output self
           (convolved self (Some [int_half (kernel_width_of self - 1)])
                      (masked data len))),
     tr ++ ops_conv ++ ops_act self).
Proof.
  intros Hpad Hodd Hover Hh Hact. rewrite call_unfold, Hpad, Hover.
  apply Z.eqb_eq in Hodd. rewrite Hodd.
  destruct (creatable self Hh Hact) as [-> [-> | [a Ha]]].
  - cbn. rewrite ?app_nil_r. reflexivity.
  - cbn. rewrite Ha, ?app_nil_r.
    destruct (String.eqb _ _); reflexivity.
Qed.

Lemma call_centered_even self data len seq_len tr :
  pad_type self = "centered" ->
  (kernel_width_of self mod 2 <> 1)%Z ->
  __call__ self data len seq_len false tr
  = (Raise (InvalidConfigurationError
              ("Only odd kernel widths supported, but got "
                 ++ format_d (kernel_width_of self))%string),
     tr).
Proof.
  intros Hpad Hodd. rewrite call_unfold, Hpad.
  apply Z.eqb_neq in Hodd. rewrite Hodd. reflexivity.
Qed.

Lemma call_unknown_pad self data len seq_len tr :
  pad_type self <> "left" ->
  pad_type self <> "centered" ->
  __call__ self data len seq_len false tr
  = (Raise (ValueError ("Unknown pad type " ++ pad_type self)%string), tr).
Proof.
  intros Hl Hc. rewrite call_unfold.
  apply String.eqb_neq in Hl, Hc. rewrite Hl, Hc. reflexivity.
Qed.

(** ** Shapes of the parts *)

Lemma half_of_double (h : nat) : (2 * h) / 2 = h /\ (2 * h) mod 2 = 0.
Proof.
  split.
  - rewrite Nat.mul_comm. apply Nat.div_mul. discriminate.
  - rewrite Nat.mul_comm. apply Nat.Div0.mod_mul.
Qed.

Lemma masked_shape senv data len (B T C : nat) :
  infer_shape senv data = Some [B; T; C] ->
  infer_shape senv len = Some [B] ->
  infer_shape senv (masked data len) = Some [B; C; T].
Proof.
  intros Hd Hl. unfold masked. cbn. rewrite Hd. cbn. rewrite Hl.
  rewrite Nat.eqb_refl. reflexivity.
Qed.

Lemma conv1d_shape_ok (n c w : nat) (k p f : Z) pad :
  pad_amount pad = Some p ->
  (0 < k)%Z -> (0 <= p)%Z -> (0 < f)%Z ->
  Z.to_nat k <= w + 2 * Z.to_nat p ->
  conv1d_shape [n; c; w] [Z.to_nat f; c; Z.to_nat k] [Z.to_nat f]
               pad [k] f "NCW"
  = Some [n; Z.to_nat f; w + 2 * Z.to_nat p - Z.to_nat k + 1].
Proof.
  intros Hp Hk Hp0 Hf Hle. unfold conv1d_shape. rewrite Hp.
  apply Z.ltb_lt in Hk, Hf. apply Z.leb_le in Hp0. apply Nat.leb_le in Hle.
  rewrite Hk, Hf, Hp0, Hle. cbn [String.eqb Ascii.eqb Bool.eqb andb].
  destruct (list_eq_dec Nat.eq_dec _ _) as [_ | Hne]; [| congruence].
  destruct (list_eq_dec Nat.eq_dec _ _) as [_ | Hne]; [| congruence].
  reflexivity.
Qed.

Lemma glu_shape senv c (B H W : nat) :
  infer_shape senv c = Some [B; 2 * H; W] ->
  infer_shape senv (glu c) = Some [B; H; W].
Proof.
  intros Hc. unfold glu.
  cbn [infer_shape act_of_string String.eqb Ascii.eqb Bool.eqb]. rewrite Hc.
  cbn [nth_error]. destruct (half_of_double H) as [Hdiv Hmod].
  rewrite Hmod, Hdiv. cbn. rewrite !Nat.eqb_refl. reflexivity.
Qed.

Lemma activated_shape senv self c (B W : nat) :
  supported_act self ->
  (0 < num_hidden_of self)%Z ->
  infer_shape senv c = Some [B; Z.to_nat (num_filter_of self); W] ->
  infer_shape senv (activated self c)
  = Some [B; Z.to_nat (num_hidden_of self); W].
Proof.
  intros Hact Hh. unfold activated, num_filter_of.
  destruct (String.eqb (act_type_of self) "glu") eqn:Hglu.
  - intros Hc. apply glu_shape. rewrite Hc. repeat f_equal. lia.
  - intros Hc. destruct Hact as [Hact | Hact].
    + apply String.eqb_neq in Hglu. contradiction.
    + cbn [infer_shape]. destruct (act_of_string (act_type_of self));
        [exact Hc | contradiction].
Qed.

Lemma block_output_shape senv self c (B W : nat) :
  supported_act self ->
  (0 < num_hidden_of self)%Z ->
  infer_shape senv c = Some [B; Z.to_nat (num_filter_of self); W] ->
  infer_shape senv (block_output self c)
  = Some [B; W; Z.to_nat (num_hidden_of self)].
Proof.
  intros Hact Hh Hc. unfold block_output. cbn [infer_shape].
  rewrite (activated_shape senv self c B W Hact Hh Hc). reflexivity.
Qed.

Lemma slice_bounds_prefix (size n : nat) :
  0 < n -> n <= size ->
  slice_bounds size 0 (Z.of_nat n) = Some (0, n).
Proof.
  intros Hpos Hle. unfold slice_bounds.
  replace (Z.of_nat n <? 0)%Z with false by (symmetry; apply Z.ltb_ge; lia).
  cbn [Z.ltb Z.compare Z.leb andb].
  replace (0 <? Z.of_nat n)%Z with true by (symmetry; apply Z.ltb_lt; lia).
  replace (Z.of_nat n <=? Z.of_nat size)%Z with true
    by (symmetry; apply Z.leb_le; lia).
  cbn. rewrite Nat2Z.id. reflexivity.
Qed.

Lemma broadcast_index_within (sh : shape) (idx : list nat) :
  Forall2 lt idx sh -> broadcast_index sh idx = idx.
Proof.
  induction 1 as [| i d idx' sh' Hlt _ IH]; cbn; [reflexivity |].
  rewrite IH. destruct (Nat.eqb_spec d 1); [f_equal; lia | reflexivity].
Qed.

Lemma broadcast_shape_same (sh : shape) : broadcast_shape sh sh = Some sh.
Proof.
  induction sh as [| d sh IH]; cbn; [reflexivity |].
  rewrite IH, Nat.eqb_refl. reflexivity.
Qed.

(** ** Values of the parts *)

Section PartValues.

Context {R : Type} {SR : Scalar R}.

Lemma masked_value (e : env) data len (b c t : nat) :
  value e (masked data len) [b; c; t]
  = if (Z.of_nat t <? to_index (value e len [b]))%Z
    then value e data [b; t; c]
    else of_Z 0.
Proof. reflexivity. Qed.

Lemma glu_value (e : env) c (B H W b h t : nat) :
  infer_shape (shapes e) c = Some [B; 2 * H; W] ->
  b < B -> h < H -> t < W ->
  value e (glu c) [b; h; t]
  = mul (value e c [b; h; t])
        (act_fn sigmoid (value e c [b; h + H; t])).
Proof.
  intros Hc Hb Hh Ht. unfold glu.
  cbn [value infer_shape act_of_string String.eqb Ascii.eqb Bool.eqb].
  rewrite Hc. cbn [nth_error].
  destruct (half_of_double H) as [Hdiv Hmod]. rewrite Hmod, Hdiv.
  cbn [Nat.ltb Nat.leb andb Nat.eqb update].
  rewrite (broadcast_index_within [B; H; W] [b; h; t])
    by (repeat constructor; assumption).
  cbn [nth_error update]. rewrite Nat.mul_0_l, Nat.add_0_r, Nat.mul_1_l.
  reflexivity.
Qed.

Lemma block_output_glu_value (e : env) self c (B H W b t h : nat) :
  act_type_of self = "glu" ->
  infer_shape (shapes e) c = Some [B; 2 * H; W] ->
  b < B -> t < W -> h < H ->
  value e (block_output self c) [b; t; h]
  = mul (value e c [b; h; t])
        (act_fn sigmoid (value e c [b; h + H; t])).
Proof.
  intros Hglu Hc Hb Ht Hh. unfold block_output, activated.
  rewrite Hglu. cbn [String.eqb Ascii.eqb Bool.eqb value swap nth_error update].
  apply (glu_value e c B H W); assumption.
Qed.

End PartValues.

(** ** The convolution and its padding *)

Lemma binary64_round_exact (a : Z) :
  (Z.abs a <= 2 ^ 53)%Z -> binary64_round a = a.
Proof.
  intros Hbound. unfold binary64_round.
  destruct (Z.eq_dec (Z.abs a) (2 ^ 53)) as [Htop | Hbelow].
  - assert (Ha : a = (2 ^ 53)%Z \/ a = (- 2 ^ 53)%Z) by lia.
    destruct Ha as [-> | ->]; vm_compute; reflexivity.
  - assert (Hlog : (Z.log2 (Z.abs a) < 53)%Z).
    { destruct (Z.eq_dec (Z.abs a) 0) as [-> | Hpos]; [reflexivity |].
      apply Z.log2_lt_pow2; lia. }
    replace (Z.log2 (Z.abs a) - 52 <=? 0)%Z with true
      by (symmetry; apply Z.leb_le; lia).
    reflexivity.
Qed.

(** Up to 2^53 the division of line 85 is exact and cannot overflow. *)
Lemma int_half_exact (a : Z) :
  (Z.abs a <= 2 ^ 53)%Z ->
  true_div_overflows a = false /\ int_half a = Z.quot a 2.
Proof.
  intros Hbound. unfold true_div_overflows, int_half.
  rewrite (binary64_round_exact a Hbound). split; [| reflexivity].
  apply Z.leb_gt. apply Z.le_lt_trans with (2 ^ 53)%Z; [exact Hbound |].
  apply Z.pow_lt_mono_r; lia.
Qed.

Lemma int_half_odd (k : Z) :
  (0 < k <= 2 ^ 53 + 1)%Z -> (k mod 2 = 1)%Z ->
  true_div_overflows (k - 1) = false
  /\ (2 * int_half (k - 1) = k - 1)%Z.
Proof.
  intros Hk Hodd.
  destruct (int_half_exact (k - 1)) as [Hover Hhalf]; [lia |].
  split; [exact Hover |]. rewrite Hhalf.
  rewrite Z.quot_div_nonneg by lia.
  Z.div_mod_to_equations. lia.
Qed.

Lemma convolved_shape senv self data len (B T C : nat) pad (p : Z) :
  well_shaped senv self data len B T C ->
  pad_amount pad = Some p ->
  (0 <= p)%Z ->
  Z.to_nat (kernel_width_of self) <= T + 2 * Z.to_nat p ->
  infer_shape senv (convolved self pad (masked data len))
  = Some [B; Z.to_nat (num_filter_of self);
          T + 2 * Z.to_nat p - Z.to_nat (kernel_width_of self) + 1].
Proof.
  intros Hws Hpad Hp Hle. unfold convolved. cbn [infer_shape].
  rewrite (masked_shape senv data len B T C (ws_data _ _ _ _ _ _ _ Hws)
                        (ws_length _ _ _ _ _ _ _ Hws)).
  rewrite (ws_weight _ _ _ _ _ _ _ Hws), (ws_bias _ _ _ _ _ _ _ Hws).
  apply conv1d_shape_ok; try assumption.
  - apply (ws_kernel _ _ _ _ _ _ _ Hws).
  - pose proof (ws_hidden _ _ _ _ _ _ _ Hws) as Hh.
    unfold num_filter_of. destruct (String.eqb _ _); lia.
Qed.

Lemma left_conv_shape senv self data len (B T C : nat) :
  well_shaped senv self data len B T C ->
  0 < T ->
  infer_shape senv
    (convolved self (Some [kernel_width_of self - 1]%Z) (masked data len))
  = Some [B; Z.to_nat (num_filter_of self);
          T + (Z.to_nat (kernel_width_of self) - 1)].
Proof.
  intros Hws HT. pose proof (ws_kernel _ _ _ _ _ _ _ Hws) as Hk.
  rewrite (convolved_shape senv self data len B T C
             (Some [kernel_width_of self - 1]%Z) (kernel_width_of self - 1)
             Hws eq_refl) by lia.
  do 4 f_equal. lia.
Qed.

Lemma left_sliced_shape senv self data len (B T C : nat) :
  well_shaped senv self data len B T C ->
  0 < T ->
  infer_shape senv
    (slice_axis
       (convolved self (Some [kernel_width_of self - 1]%Z) (masked data len))
       2 0 (Z.of_nat T))
  = Some [B; Z.to_nat (num_filter_of self); T].
Proof.
  intros Hws HT. cbn [infer_shape].
  rewrite (left_conv_shape senv self data len B T C Hws HT). cbn [nth_error].
  rewrite slice_bounds_prefix by lia. cbn [update]. rewrite Nat.sub_0_r.
  reflexivity.
Qed.

Lemma centered_conv_shape senv self data len (B T C : nat) :
  well_shaped senv self data len B T C ->
  0 < T ->
  (kernel_width_of self mod 2 = 1)%Z ->
  (kernel_width_of self <= 2 ^ 53 + 1)%Z ->
  infer_shape senv
    (convolved self (Some [int_half (kernel_width_of self - 1)])
               (masked data len))
  = Some [B; Z.to_nat (num_filter_of self); T].
Proof.
  intros Hws HT Hodd Hbound. pose proof (ws_kernel _ _ _ _ _ _ _ Hws) as Hk.
  destruct (int_half_odd (kernel_width_of self) (conj Hk Hbound) Hodd)
    as [_ Hhalf].
  rewrite (convolved_shape senv self data len B T C
             (Some [int_half (kernel_width_of self - 1)])
             (int_half (kernel_width_of self - 1)) Hws eq_refl) by lia.
  do 4 f_equal. lia.
Qed.

Lemma conv1d_shape_inv dsh wsh bsh pad kernel (f : Z) layout sh :
  conv1d_shape dsh wsh bsh pad kernel f layout = Some sh ->
  exists n w, sh = [n; Z.to_nat f; w].
Proof.
  unfold conv1d_shape.
  destruct kernel as [| k [| ? ?]]; try discriminate.
  destruct dsh as [| n [| c [| w [| ? ?]]]]; try discriminate.
  destruct (pad_amount pad) as [p |]; try discriminate.
  destruct (_ && _); try discriminate.
  intros [= <-]. eauto.
Qed.

(** The convolution of a call, sliced or not, has [num_filter] channels. *)
Lemma conv_channels senv self pad x (seq_len : Z) conv sh :
  conv = convolved self pad x \/
  conv = slice_axis (convolved self pad x) 2 0 seq_len ->
  infer_shape senv conv = Some sh ->
  exists B W, sh = [B; Z.to_nat (num_filter_of self); W].
Proof.
  intros [-> | ->]; unfold convolved; cbn [infer_shape].
  - destruct (infer_shape senv x), (infer_shape senv (conv_weight self)),
      (infer_shape senv (conv_bias self)); try discriminate.
    apply conv1d_shape_inv.
  - destruct (infer_shape senv x), (infer_shape senv (conv_weight self)),
      (infer_shape senv (conv_bias self)); try discriminate.
    destruct (conv1d_shape _ _ _ _ _ _ _) as [csh |] eqn:Hc; try discriminate.
    destruct (conv1d_shape_inv _ _ _ _ _ _ _ _ Hc) as (n & w & ->).
    cbn [nth_error]. destruct (slice_bounds _ _ _) as [[b e] |];
      try discriminate.
    intros [= <-]. cbn [update]. eauto.
Qed.

Section ConvValues.

Context {R : Type} {SR : Scalar R}.

(** With [k - 1] zeros in front, the output at [t] reads the input at
    [t - (k - 1)], ..., [t] only. *)
Lemma conv1d_at_causal (x1 x2 wt1 wt2 b1 b2 : list nat -> R)
      (c w k n f t : nat) :
  (forall ci u, u <= t -> x1 [n; ci; u] = x2 [n; ci; u]) ->
  (forall idx, wt1 idx = wt2 idx) ->
  (forall idx, b1 idx = b2 idx) ->
  conv1d_at x1 wt1 b1 c w k (k - 1) [n; f; t]
  = conv1d_at x2 wt2 b2 c w k (k - 1) [n; f; t].
Proof.
  intros Hx Hw Hb. unfold conv1d_at. rewrite Hb. f_equal. f_equal.
  apply flat_map_ext. intros ci. apply map_ext_in. intros j Hj.
  apply in_seq in Hj. rewrite Hw. f_equal.
  unfold padded. destruct (_ && _); [| reflexivity].
  apply Hx. lia.
Qed.

Lemma left_sliced_value (e : env) self data len (B T C b f t : nat) :
  well_shaped (shapes e) self data len B T C ->
  0 < T ->
  value e
    (slice_axis
       (convolved self (Some [kernel_width_of self - 1]%Z) (masked data len))
       2 0 (Z.of_nat T))
    [b; f; t]
  = conv1d_at (value e (masked data len)) (value e (conv_weight self))
              (value e (conv_bias self)) C T
              (Z.to_nat (kernel_width_of self))
              (Z.to_nat (kernel_width_of self) - 1) [b; f; t].
Proof.
  intros Hws HT. cbn [value].
  rewrite (left_conv_shape (shapes e) self data len B T C Hws HT).
  cbn [nth_error]. rewrite slice_bounds_prefix by lia.
  cbn [update]. rewrite Nat.add_0_r. unfold convolved. cbn [value].
  rewrite (masked_shape (shapes e) data len B T C
             (ws_data _ _ _ _ _ _ _ Hws) (ws_length _ _ _ _ _ _ _ Hws)).
  cbn [pad_amount]. rewrite Z2Nat.inj_sub by lia. reflexivity.
Qed.

Lemma block_output_act_value (e : env) self c (b t h : nat) :
  String.eqb (act_type_of self) "glu" = false ->
  value e (block_output self c) [b; t; h]
  = match act_of_string (act_type_of self) with
    | Some a => act_fn a (value e c [b; h; t])
    | None => zero
    end.
Proof.
  intros Hglu. unfold block_output, activated. rewrite Hglu. reflexivity.
Qed.

End ConvValues.

(** ** Consequences for the block's output *)

Lemma num_filter_glu self :
  act_type_of self = "glu" ->
  num_filter_of self = (2 * num_hidden_of self)%Z
  /\ Z.to_nat (num_filter_of self) = 2 * Z.to_nat (num_hidden_of self).
Proof.
  intros Hglu. unfold num_filter_of. rewrite Hglu.
  cbn [String.eqb Ascii.eqb Bool.eqb]. split; [reflexivity | lia].
Qed.

Lemma block_output_glu self c :
  act_type_of self = "glu" ->
  block_output self c = swapaxes (glu c) 1 2.
Proof.
  intros Hglu. unfold block_output, activated. rewrite Hglu. reflexivity.
Qed.

Lemma ops_without_slice self : ~ In "slice_axis" (ops_conv ++ ops_act self).
Proof.
  unfold ops_conv, ops_act. destruct (String.eqb _ _); cbn;
    intros Hin; repeat (destruct Hin as [Hin | Hin]; [discriminate |]);
    exact Hin.
Qed.

Section OutputValues.

Context {R : Type} {SR : Scalar R}.

Lemma left_sliced_causal (e e' : env) self data len (B T C b f t : nat) :
  well_shaped (shapes e) self data len B T C ->
  well_shaped (shapes e') self data len B T C ->
  0 < T ->
  (forall idx, value e (conv_weight self) idx
               = value e' (conv_weight self) idx) ->
  (forall idx, value e (conv_bias self) idx
               = value e' (conv_bias self) idx) ->
  (forall idx, value e len idx = value e' len idx) ->
  (forall b' t' c, t' <= t ->
                   value e data [b'; t'; c] = value e' data [b'; t'; c]) ->
  let sliced :=
    slice_axis
      (convolved self (Some [kernel_width_of self - 1]%Z) (masked data len))
      2 0 (Z.of_nat T) in
  value e sliced [b; f; t] = value e' sliced [b; f; t].
Proof.
  intros Hws Hws' HT Hw Hb Hlen Hdata sliced. unfold sliced.
  rewrite (left_sliced_value e self data len B T C b f t Hws HT).
  rewrite (left_sliced_value e' self data len B T C b f t Hws' HT).
  apply conv1d_at_causal; try assumption.
  intros ci u Hu. rewrite !masked_value, Hlen.
  destruct (_ <? _)%Z; [apply Hdata; exact Hu | reflexivity].
Qed.

Lemma block_output_congr (e e' : env) self c (B W b t h : nat) :
  supported_act self ->
  infer_shape (shapes e) c = Some [B; Z.to_nat (num_filter_of self); W] ->
  infer_shape (shapes e') c = Some [B; Z.to_nat (num_filter_of self); W] ->
  b < B -> t < W -> h < Z.to_nat (num_hidden_of self) ->
  (forall f, value e c [b; f; t] = value e' c [b; f; t]) ->
  value e (block_output self c) [b; t; h]
  = value e' (block_output self c) [b; t; h].
Proof.
  intros Hact Hc Hc' Hb Ht Hh Hval.
  destruct (String.eqb (act_type_of self) "glu") eqn:Hglu.
  - apply String.eqb_eq in Hglu.
    destruct (num_filter_glu self Hglu) as [_ Hf]. rewrite Hf in Hc, Hc'.
    rewrite (block_output_glu_value e self c B _ W b t h Hglu Hc Hb Ht Hh).
    rewrite (block_output_glu_value e' self c B _ W b t h Hglu Hc' Hb Ht Hh).
    rewrite !Hval. reflexivity.
  - rewrite !block_output_act_value by exact Hglu.
    rewrite Hval. reflexivity.
Qed.

End OutputValues.

(** Every call that returns went through one of two paths, both with
    [skip_padding] false, and met a convolution and an activation that MXNet
    accepts. *)
Lemma call_returns_inv self data len seq_len skip tr out tr' :
  __call__ self data len seq_len skip tr = (Ok out, tr') ->
  skip = false
  /\ (0 < num_filter_of self)%Z
  /\ supported_act self
  /\ ((pad_type self = "left"
       /\ out = block_output self
                  (slice_axis
                     (convolved self (Some [kernel_width_of self - 1]%Z)
                                (masked data len))
                     2 0 seq_len)
       /\ tr' = tr ++ ops_conv ++ ["slice_axis"] ++ ops_act self)
      \/ (pad_type self = "centered"
          /\ (kernel_width_of self mod 2 = 1)%Z
          /\ true_div_overflows (kernel_width_of self - 1) = false
          /\ out = block_output self
                     (convolved self
                        (Some [int_half (kernel_width_of self - 1)])
                        (masked data len))
          /\ tr' = tr ++ ops_conv ++ ops_act self)).
Proof.
  rewrite call_unfold. cbv zeta.
  destruct skip; [discriminate |].
  assert (Hsupp : (num_filter_of self <=? 0)%Z = false ->
                  (String.eqb (act_type_of self) "glu" = true
                   \/ act_of_string (act_type_of self) <> None) ->
                  (0 < num_filter_of self)%Z /\ supported_act self).
  { intros Hf Hact. split; [apply Z.leb_gt; exact Hf |].
    destruct Hact as [Hglu | Hknown];
      [left; apply String.eqb_eq; exact Hglu | right; exact Hknown]. }
  destruct (num_filter_of self <=? 0)%Z eqn:Hf.
  { destruct (String.eqb (pad_type self) "left"); [discriminate |].
    destruct (String.eqb (pad_type self) "centered"); [| discriminate].
    destruct (kernel_width_of self mod 2 =? 1)%Z; [| discriminate].
    destruct (true_div_overflows _); discriminate. }
  destruct (String.eqb_spec (pad_type self) "left") as [Hl | Hl].
  - destruct (String.eqb (act_type_of self) "glu") eqn:Hglu.
    + intros [= <- <-]. destruct (Hsupp eq_refl (or_introl eq_refl)).
      repeat split; auto.
    + destruct (act_of_string (act_type_of self)) as [a |] eqn:Ha;
        [| discriminate].
      intros [= <- <-].
      destruct (Hsupp eq_refl) as [Hpos Hs]; [right; discriminate |].
      repeat split; auto.
  - destruct (String.eqb_spec (pad_type self) "centered") as [Hc | Hc];
      [| discriminate].
    destruct (Z.eqb_spec (kernel_width_of self mod 2) 1) as [Hodd | Heven];
      [| discriminate].
    destruct (true_div_overflows (kernel_width_of self - 1)) eqn:Hover;
      [discriminate |].
    destruct (String.eqb (act_type_of self) "glu") eqn:Hglu.
    + intros [= <- <-]. destruct (Hsupp eq_refl (or_introl eq_refl)).
      repeat split; auto.
      right. repeat split; auto.
    + destruct (act_of_string (act_type_of self)) as [a |] eqn:Ha;
        [| discriminate].
      intros [= <- <-].
      destruct (Hsupp eq_refl) as [Hpos Hs]; [right; discriminate |].
      repeat split; auto.
      right. repeat split; auto.
Qed.

(** ** The example block, computed *)

Example left_call_graph :
  __call__ (Example.block 2 "left" "relu") (Var "data") (Var "length") 3
           false []
  = (Ok (swapaxes
           (Activation
              (slice_axis
                 (Convolution
                    (transpose
                       (SequenceMask (swapaxes (Var "data") 0 1)
                                     (Var "length") true 0)
                       [1; 2; 0])
                    (Var "enc_conv_weight") (Var "enc_conv_bias")
                    (Some [1%Z]) [2%Z] 1 "NCW")
                 2 0 3)
              "relu")
           1 2),
     ["swapaxes"; "SequenceMask"; "transpose"; "Convolution"; "slice_axis";
      "Activation"; "swapaxes"]).
Proof. reflexivity. Qed.

Example left_output_values :
  map (fun t =>
         value (Example.tensors 1 2)
               (block_output (Example.block 2 "left" "relu")
                  (slice_axis
                     (convolved (Example.block 2 "left" "relu")
                                (Some [1%Z])
                                (masked (Var "data") (Var "length")))
                     2 0 3))
               [0; t; 0])
      [0; 1; 2]
  = [ Act relu (Add (Add (Mul (Const 0) (Const 100))
                         (Add (Mul (Const 10) (Const 101)) (Const 0)))
                    (Const 1000));
      Act relu (Add (Add (Mul (Const 10) (Const 100))
                         (Add (Mul (Const 11) (Const 101)) (Const 0)))
                    (Const 1000));
      Act relu (Add (Add (Mul (Const 11) (Const 100))
                         (Add (Mul (Const 0) (Const 101)) (Const 0)))
                    (Const 1000)) ].
Proof. reflexivity. Qed.

Example centered_output_values :
  map (fun t =>
         value (Example.tensors 1 3)
               (convolved (Example.block 3 "centered" "relu") (Some [1%Z])
                          (masked (Var "data") (Var "length")))
               [0; 0; t])
      [0; 2]
  = [ Add (Add (Mul (Const 0) (Const 100))
               (Add (Mul (Const 10) (Const 101))
                    (Add (Mul (Const 11) (Const 102)) (Const 0))))
          (Const 1000);
      Add (Add (Mul (Const 11) (Const 100))
               (Add (Mul (Const 0) (Const 101))
                    (Add (Mul (Const 0) (Const 102)) (Const 0))))
          (Const 1000) ].
Proof. reflexivity. Qed.

Example shapes_along_the_graph :
  let senv := shapes (Example.tensors 2 2) in
  let x := masked (Var "data") (Var "length") in
  let c := convolved (Example.block 2 "left" "glu") (Some [1%Z]) x in
  (infer_shape senv (swapaxes (Var "data") 0 1),
   infer_shape senv x,
   infer_shape senv c,
   infer_shape senv (slice_axis c 2 0 3),
   infer_shape senv (glu (slice_axis c 2 0 3)))
  = (Some [3; 1; 1], Some [1; 1; 3], Some [1; 2; 4], Some [1; 2; 3],
     Some [1; 1; 3]).
Proof. reflexivity. Qed.

Example shape_errors :
  let senv := shapes (Example.tensors 2 2) in
  let x := masked (Var "data") (Var "length") in
  (infer_shape senv (convolved (Example.block 4 "left" "glu") None x),
   infer_shape senv (convolved (Example.block 2 "left" "glu")
                               (Some [(-1)%Z]) x),
   infer_shape senv (slice_axis x 2 0 4),
   infer_shape senv (split_output x 2 2 0),
   infer_shape senv (Activation x "glu"))
  = (None, None, None, None, None).
Proof. reflexivity. Qed.

Example skip_padding_call :
  __call__ (Example.block 2 "left" "glu") (Var "data") (Var "length") 3
           true []
  = (Raise MXNetError, ["swapaxes"; "SequenceMask"; "transpose"]).
Proof. reflexivity. Qed.

Example rounded_half :
  (int_half (2 ^ 54 + 2) = 2 ^ 53
   /\ int_half (2 ^ 53) = 2 ^ 52
   /\ int_half 2 = 1
   /\ true_div_overflows (2 ^ 54 + 2) = false
   /\ true_div_overflows (2 ^ 1025) = true)%Z.
Proof. vm_compute. repeat split; reflexivity. Qed.

Example arguments_listed_once :
  list_arguments
    (block_output (Example.block 3 "centered" "glu")
       (convolved (Example.block 3 "centered" "glu") (Some [1%Z])
                  (masked (Var "data") (Var "length"))))
  = ["data"; "length"; "enc_conv_weight"; "enc_conv_bias"].
Proof. reflexivity. Qed.

(** * The claims *)

Lemma str_in_In (x : string) (xs : list string) :
  str_in x xs = true <-> In x xs.
Proof.
  unfold str_in. rewrite existsb_exists. split.
  - intros (y & Hin & Heq). apply String.eqb_eq in Heq. subst. exact Hin.
  - intros Hin. exists x. split; [exact Hin | apply String.eqb_refl].
Qed.

(** C8: constructing a [ConvolutionConfig] with an activation kind outside
    [C.CNN_ACTIVATION_TYPES] raises the invalid-configuration error
    "Unknown activation <kind>." and builds nothing; with a kind in the set
    (given explicitly, or the default [C.GLU]) it succeeds and the
    configuration stores the kernel width, the hidden size and that kind
    unchanged. *)
Theorem config_validates_activation (GLU : string) (types : list string)
        (kernel_width num_hidden : Z) (act : string) :
  (~ In act types ->
   ConvolutionConfig.__init__ GLU types kernel_width num_hidden (Some act)
   = Raise (InvalidConfigurationError ("Unknown activation " ++ act ++ ".")%string)) /\
  (In act types ->
   ConvolutionConfig.__init__ GLU types kernel_width num_hidden (Some act)
   = Ok (ConvolutionConfig.Build kernel_width num_hidden act)) /\
  (In GLU types ->
   ConvolutionConfig.__init__ GLU types kernel_width num_hidden None
   = Ok (ConvolutionConfig.Build kernel_width num_hidden GLU)).
Proof.
  unfold ConvolutionConfig.__init__, utils.check_condition.
  repeat split.
  - intros Hout. destruct (str_in act types) eqn:Hin; [| reflexivity].
    apply str_in_In in Hin. contradiction.
  - intros Hin. apply str_in_In in Hin. rewrite Hin. reflexivity.
  - intros Hin. apply str_in_In in Hin. rewrite Hin. reflexivity.
Qed.

Lemma config_validates_activation_witness :
  ConvolutionConfig.__init__ "glu" Example.activation_types 3 512
                             (Some "relu_invalid")
  = Raise (InvalidConfigurationError "Unknown activation relu_invalid.")
  /\ ConvolutionConfig.__init__ "glu" Example.activation_types 3 512
                                (Some "relu")
     = Ok (ConvolutionConfig.Build 3 512 "relu")
  /\ ConvolutionConfig.__init__ "glu" Example.activation_types 3 512 None
     = Ok (ConvolutionConfig.Build 3 512 "glu").
Proof.
  pose proof (config_validates_activation
                "glu" Example.activation_types 3 512 "relu_invalid")
    as (Hbad & _ & Hdefault).
  pose proof (config_validates_activation
                "glu" Example.activation_types 3 512 "relu")
    as (_ & Hgood & _).
  split; [| split].
  - apply Hbad. cbn. intuition discriminate.
  - apply Hgood. cbn. auto.
  - apply Hdefault. cbn. auto.
Defined.

(** C3, as the code has it: constructing a block with an even kernel width
    and the "centered" pad mode succeeds. *)
Lemma even_centered_block_is_constructed :
  ConvolutionConfig.__init__ "glu" Example.activation_types 4 1 None
  = Ok (ConvolutionConfig.Build 4 1 "glu")
  /\ ConvolutionBlock.__init__ (ConvolutionConfig.Build 4 1 "glu")
                               "centered" "enc_" []
     = (Ok (Example.block 4 "centered" "glu"), ["Variable"; "Variable"]).
Proof. split; reflexivity. Qed.

(** C3, amended: an even kernel width with the "centered" pad mode is not
    detected at construction, which succeeds; it is detected by the forward
    call when [skip_padding] is false, which raises the invalid-configuration
    error "Only odd kernel widths supported, but got <width>" before it
    invokes any tensor operator. *)
Theorem even_centered_rejected_at_call (cfg : ConvolutionConfig.t)
        (prefix : string) (tr : trace)
        (data len : Symbol) (seq_len : Z) (tr' : trace) :
  (ConvolutionConfig.kernel_width cfg mod 2 <> 1)%Z ->
  exists self,
    ConvolutionBlock.__init__ cfg "centered" prefix tr
    = (Ok self, tr ++ ["Variable"; "Variable"])
    /\ config self = cfg
    /\ pad_type self = "centered"
    /\ __call__ self data len seq_len false tr'
       = (Raise (InvalidConfigurationError
                   ("Only odd kernel widths supported, but got "
                      ++ format_d (ConvolutionConfig.kernel_width cfg))%string),
          tr').
Proof.
  intros Heven.
  exists (ConvolutionBlock.Build prefix "centered" cfg
            (Var (prefix ++ "conv_weight")%string) (Var (prefix ++ "conv_bias")%string)).
  repeat split.
  - unfold ConvolutionBlock.__init__, bind, ret, mx_sym.Variable_, invoke.
    rewrite <- app_assoc. reflexivity.
  - apply call_centered_even; [reflexivity | exact Heven].
Qed.

Lemma even_centered_rejected_at_call_witness :
  exists self,
    ConvolutionBlock.__init__ (ConvolutionConfig.Build 4 1 "glu")
                              "centered" "enc_" []
    = (Ok self, ["Variable"; "Variable"])
    /\ config self = ConvolutionConfig.Build 4 1 "glu"
    /\ pad_type self = "centered"
    /\ __call__ self (Var "data") (Var "length") 3 false []
       = (Raise (InvalidConfigurationError
                   "Only odd kernel widths supported, but got 4"),
          []).
Proof.
  apply (even_centered_rejected_at_call
           (ConvolutionConfig.Build 4 1 "glu") "enc_" []
           (Var "data") (Var "length") 3 []).
  vm_compute. discriminate.
Defined.

(** C7, as the code has it: with [skip_padding] an unrecognised pad mode is
    not looked at.  The call goes on to [swapaxes], [SequenceMask] and
    [transpose], and the error it then raises is the convolution's, not
    [ValueError]. *)
Lemma unknown_pad_not_checked_when_skipping :
  pad_type (Example.block 3 "right" "glu") <> "left"
  /\ pad_type (Example.block 3 "right" "glu") <> "centered"
  /\ __call__ (Example.block 3 "right" "glu") (Var "data") (Var "length")
              3 true []
     = (Raise MXNetError, ["swapaxes"; "SequenceMask"; "transpose"]).
Proof.
  split; [discriminate | split; [discriminate |]].
  vm_compute. reflexivity.
Qed.

(** C7, amended: a call with [skip_padding] false on a block whose pad mode
    is neither "left" nor "centered" raises [ValueError] "Unknown pad type
    <mode>", and raises it before it invokes any tensor operator: the trace
    of operators is as it was. *)
Theorem unknown_pad_rejected_at_call (self : ConvolutionBlock.t)
        (data len : Symbol) (seq_len : Z) (tr : trace) :
  pad_type self <> "left" ->
  pad_type self <> "centered" ->
  __call__ self data len seq_len false tr
  = (Raise (ValueError ("Unknown pad type " ++ pad_type self)%string), tr).
Proof. apply call_unknown_pad. Qed.

Lemma unknown_pad_rejected_at_call_witness :
  __call__ (Example.block 3 "right" "glu") (Var "data") (Var "length")
           3 false []
  = (Raise (ValueError "Unknown pad type right"), []).
Proof.
  apply (unknown_pad_rejected_at_call (Example.block 3 "right" "glu"));
    vm_compute; discriminate.
Defined.

(** C10, as the code has it: with [skip_padding] the pad mode is indeed
    never looked at, and the padding chosen is [None]; but the call hands
    that [None] to the convolution as [pad], which MXNet rejects when the
    symbol is created.  For every pad mode, kernel width and input the call
    invokes [swapaxes], [SequenceMask] and [transpose] and then raises: there
    is no convolution output, of any length. *)
Theorem skip_padding_call_fails_in_convolution
        (self : ConvolutionBlock.t) (data len : Symbol) (seq_len : Z)
        (tr : trace) :
  __call__ self data len seq_len true tr
  = (Raise MXNetError, tr ++ ["swapaxes"; "SequenceMask"; "transpose"])
  /\ forall out tr', __call__ self data len seq_len true tr <> (Ok out, tr').
Proof.
  rewrite call_skip_padding. split; [reflexivity | discriminate].
Qed.

(** C2, as the code has it: with [skip_padding] the masking is not bypassed.
    When the call stops, [SequenceMask] has been invoked on the input. *)
Lemma skip_padding_still_masks :
  __call__ (Example.block 1 "left" "relu") (Var "data") (Var "length")
           3 true []
  = (Raise MXNetError, ["swapaxes"; "SequenceMask"; "transpose"])
  /\ In "SequenceMask" ["swapaxes"; "SequenceMask"; "transpose"].
Proof. split; [vm_compute; reflexivity | cbn; tauto]. Qed.

(** C2, amended: the masking does not depend on [skip_padding].  Every call
    that gets past the choice of the padding, with [skip_padding] or without,
    invokes [swapaxes], [SequenceMask] and [transpose] before anything else;
    every call that returns has computed the convolution of
    [masked data data_length], whose entry for batch example [b] at time [t]
    is the data's where [t] is below [data_length[b]] and zero at every
    [t >= data_length[b]]. *)
Theorem masking_applied_on_every_call {R : Type} {SR : Scalar R} (e : env)
        (self : ConvolutionBlock.t) (data len : Symbol) (seq_len : Z)
        (skip_padding : bool) (tr : trace) :
  (skip_padding = true
   \/ pad_type self = "left"
   \/ (pad_type self = "centered"
       /\ (kernel_width_of self mod 2 = 1)%Z
       /\ true_div_overflows (kernel_width_of self - 1) = false) ->
   exists r rest,
     __call__ self data len seq_len skip_padding tr
     = (r, tr ++ ["swapaxes"; "SequenceMask"; "transpose"] ++ rest))
  /\ (forall out tr',
         __call__ self data len seq_len skip_padding tr = (Ok out, tr') ->
         exists pad conv rest,
           (conv = convolved self pad (masked data len)
            \/ conv = slice_axis (convolved self pad (masked data len))
                                 2 0 seq_len)
           /\ out = block_output self conv
           /\ tr' = tr ++ ["swapaxes"; "SequenceMask"; "transpose";
                           "Convolution"] ++ rest)
  /\ forall b c t : nat,
      value e (masked data len) [b; c; t]
      = if (Z.of_nat t <? to_index (value e len [b]))%Z
        then value e data [b; t; c]
        else of_Z 0.
Proof.
  split; [| split].
  - intros Hpath. rewrite call_unfold. cbv zeta.
    assert (Hgraph :
      forall pad sliced,
      exists r rest,
        (if (num_filter_of self <=? 0)%Z
         then (Raise MXNetError, tr ++ ops_masking)
         else if String.eqb (act_type_of self) "glu"
              then (Ok (block_output self
                          (if sliced : bool
                           then slice_axis
                                  (convolved self pad (masked data len))
                                  2 0 seq_len
                           else convolved self pad (masked data len))),
                    tr ++ (ops_conv ++ (if sliced then ["slice_axis"]
                                        else []))
                       ++ ops_act self)
              else match act_of_string (act_type_of self) with
                   | Some _ =>
                       (Ok (block_output self
                              (if sliced
                               then slice_axis
                                      (convolved self pad (masked data len))
                                      2 0 seq_len
                               else convolved self pad (masked data len))),
                        tr ++ (ops_conv ++ (if sliced then ["slice_axis"]
                                            else []))
                           ++ ops_act self)
                   | None =>
                       (Raise MXNetError,
                        tr ++ ops_conv ++ (if sliced then ["slice_axis"]
                                           else []))
                   end)
        = (r, tr ++ ["swapaxes"; "SequenceMask"; "transpose"] ++ rest)).
    { intros pad sliced.
      destruct (num_filter_of self <=? 0)%Z.
      - exists (Raise MXNetError), []. rewrite app_nil_r. reflexivity.
      - destruct (String.eqb (act_type_of self) "glu");
          [| destruct (act_of_string (act_type_of self))];
          eexists; eexists; unfold ops_conv; cbn [app]; reflexivity. }
    destruct skip_padding.
    + exists (Raise MXNetError), []. rewrite app_nil_r. reflexivity.
    + destruct Hpath as [Hs | [Hl | (Hc & Hodd & Hover)]]; [discriminate | |].
      * apply String.eqb_eq in Hl. rewrite Hl.
        apply (Hgraph (Some [kernel_width_of self - 1]%Z) true).
      * rewrite Hc, Hover. apply Z.eqb_eq in Hodd. rewrite Hodd.
        apply (Hgraph (Some [int_half (kernel_width_of self - 1)]) false).
  - intros out tr' Hcall.
    destruct (call_returns_inv _ _ _ _ _ _ _ _ Hcall)
      as (_ & _ & _ & [(_ & -> & ->) | (_ & _ & _ & -> & ->)]).
    + eexists. eexists. exists (["slice_axis"] ++ ops_act self).
      split; [right; reflexivity |]. split; reflexivity.
    + eexists. eexists. exists (ops_act self).
      split; [left; reflexivity |]. split; reflexivity.
  - intros b c t. apply masked_value.
Qed.

Lemma masking_applied_on_every_call_witness :
  (exists r rest,
      __call__ (Example.block 2 "left" "relu") (Var "data") (Var "length")
               3 false []
      = (r, [] ++ ["swapaxes"; "SequenceMask"; "transpose"] ++ rest))
  /\ value (Example.tensors 1 2) (Var "data") [0; 2; 0] = Const 12
  /\ value (Example.tensors 1 2) (masked (Var "data") (Var "length"))
           [0; 0; 2]
     = Const 0.
Proof.
  destruct (masking_applied_on_every_call
              (Example.tensors 1 2) (Example.block 2 "left" "relu")
              (Var "data") (Var "length") 3 false [])
    as (Hops & _ & Hvalue).
  split; [apply Hops; right; left; reflexivity |].
  split; [reflexivity |].
  rewrite Hvalue. reflexivity.
Defined.

(** C6: for every input of shape (batch, seq_len, hidden) and every pad
    mode, the tensor a call returns has shape (batch, seq_len, num_hidden),
    with [skip_padding] or without; and a call with [skip_padding] false in
    left mode, or in centered mode with an odd kernel width, returns one.
    In centered mode the kernel width is at most 2^53 + 1, where the
    binary64 division of [int((k-1)/2)] is exact. *)
Theorem returned_tensor_keeps_shape (senv : string -> option shape)
        (self : ConvolutionBlock.t) (data len : Symbol) (seq_len : Z)
        (tr : trace) (B T C : nat) :
  well_shaped senv self data len B T C ->
  0 < T ->
  seq_len = Z.of_nat T ->
  pad_type self = "left" \/ (kernel_width_of self <= 2 ^ 53 + 1)%Z ->
  (forall skip_padding out tr',
      __call__ self data len seq_len skip_padding tr = (Ok out, tr') ->
      infer_shape senv out = Some [B; T; Z.to_nat (num_hidden_of self)])
  /\ (pad_type self = "left"
      \/ (pad_type self = "centered"
          /\ (kernel_width_of self mod 2 = 1)%Z) ->
      exists out tr',
        __call__ self data len seq_len false tr = (Ok out, tr')).
Proof.
  intros Hws HT -> Hbound. split.
  - intros skip_padding out tr' Hcall.
    destruct (call_returns_inv _ _ _ _ _ _ _ _ Hcall)
      as (_ & _ & _ & [(_ & -> & _) | (Hc & Hodd & _ & -> & _)]).
    + apply block_output_shape; [apply Hws | apply Hws |].
      apply (left_sliced_shape senv self data len B T C Hws HT).
    + destruct Hbound as [Hl | Hbound]; [congruence |].
      apply block_output_shape; [apply Hws | apply Hws |].
      apply (centered_conv_shape senv self data len B T C Hws HT Hodd Hbound).
  - intros [Hl | [Hc Hodd]].
    + eexists. eexists. apply call_left; [exact Hl | apply Hws | apply Hws].
    + destruct Hbound as [Hl | Hbound]; [congruence |].
      destruct (int_half_odd (kernel_width_of self)
                             (conj (ws_kernel _ _ _ _ _ _ _ Hws) Hbound) Hodd)
        as [Hover _].
      eexists. eexists.
      apply call_centered_odd; try assumption; apply Hws.
Qed.

Lemma returned_tensor_keeps_shape_witness :
  exists out tr',
    __call__ (Example.block 3 "centered" "glu") (Var "data") (Var "length")
             3 false []
    = (Ok out, tr')
    /\ infer_shape (shapes (Example.tensors 2 3)) out = Some [1; 3; 1].
Proof.
  destruct (returned_tensor_keeps_shape
              (shapes (Example.tensors 2 3))
              (Example.block 3 "centered" "glu")
              (Var "data") (Var "length") 3 [] 1 3 1)
    as [Hshape Hreturns];
    [shapes_ok | lia | reflexivity | right; vm_compute; discriminate |].
  destruct Hreturns as (out & tr' & Hcall);
    [right; split; reflexivity |].
  exists out, tr'. split; [exact Hcall |].
  apply (Hshape false out tr' Hcall).
Defined.

(** C5: for every odd kernel width k up to 2^53 + 1 and pad mode "centered",
    a call with [skip_padding] false hands the convolution the padding
    (k-1)/2, applied on each side of the time axis, and invokes no
    [slice_axis]; the convolution output, and so the block's output, has the
    input's [seq_len] time steps.  The bound is where the binary64 division
    of [int((k-1)/2)] is exact. *)
Theorem centered_padding_keeps_length (senv : string -> option shape)
        (self : ConvolutionBlock.t) (data len : Symbol) (seq_len : Z)
        (tr : trace) (B T C : nat) :
  pad_type self = "centered" ->
  (kernel_width_of self mod 2 = 1)%Z ->
  (kernel_width_of self <= 2 ^ 53 + 1)%Z ->
  well_shaped senv self data len B T C ->
  0 < T ->
  let p := int_half (kernel_width_of self - 1) in
  let conv := convolved self (Some [p]) (masked data len) in
  (2 * p = kernel_width_of self - 1)%Z
  /\ __call__ self data len seq_len false tr
     = (Ok (block_output self conv), tr ++ ops_conv ++ ops_act self)
  /\ ~ In "slice_axis" (ops_conv ++ ops_act self)
  /\ infer_shape senv conv = Some [B; Z.to_nat (num_filter_of self); T]
  /\ infer_shape senv (block_output self conv)
     = Some [B; T; Z.to_nat (num_hidden_of self)].
Proof.
  intros Hc Hodd Hbound Hws HT p conv.
  pose proof (centered_conv_shape senv self data len B T C Hws HT Hodd Hbound)
    as Hconv.
  destruct (int_half_odd (kernel_width_of self)
                         (conj (ws_kernel _ _ _ _ _ _ _ Hws) Hbound) Hodd)
    as [Hover Hhalf].
  split; [exact Hhalf |].
  split; [apply call_centered_odd; try assumption; apply Hws |].
  split; [apply ops_without_slice |].
  split; [exact Hconv |].
  apply block_output_shape; [apply Hws | apply Hws | exact Hconv].
Qed.

Lemma centered_padding_keeps_length_witness :
  (2 * int_half (3 - 1) = 3 - 1)%Z
  /\ __call__ (Example.block 3 "centered" "glu") (Var "data") (Var "length")
              3 false []
     = (Ok (block_output (Example.block 3 "centered" "glu")
              (convolved (Example.block 3 "centered" "glu") (Some [1%Z])
                         (masked (Var "data") (Var "length")))),
        ["swapaxes"; "SequenceMask"; "transpose"; "Convolution";
         "split"; "Activation"; "broadcast_mul"; "swapaxes"])
  /\ ~ In "slice_axis"
          ["swapaxes"; "SequenceMask"; "transpose"; "Convolution";
           "split"; "Activation"; "broadcast_mul"; "swapaxes"]
  /\ infer_shape (shapes (Example.tensors 2 3))
                 (convolved (Example.block 3 "centered" "glu") (Some [1%Z])
                            (masked (Var "data") (Var "length")))
     = Some [1; 2; 3]
  /\ infer_shape (shapes (Example.tensors 2 3))
                 (block_output (Example.block 3 "centered" "glu")
                    (convolved (Example.block 3 "centered" "glu")
                               (Some [1%Z])
                               (masked (Var "data") (Var "length"))))
     = Some [1; 3; 1].
Proof.
  apply (centered_padding_keeps_length
           (shapes (Example.tensors 2 3)) (Example.block 3 "centered" "glu")
           (Var "data") (Var "length") 3 [] 1 3 1);
    [reflexivity | reflexivity | vm_compute; discriminate | shapes_ok | lia].
Defined.

(** C4: for every kernel width k >= 1 and pad mode "left", a call with
    [skip_padding] false hands the convolution the padding k-1, applied on
    each side of the time axis, so that the convolution output has
    [seq_len + k - 1] time steps, and slices it to the first [seq_len]: the
    block's output has the input's [seq_len] time steps.  The result is
    causal: when two inputs of the block agree on every time step up to [t]
    (with the same weights, bias and lengths), the outputs agree at [t]. *)
Theorem left_padding_is_causal {R : Type} {SR : Scalar R} (e : env)
        (self : ConvolutionBlock.t) (data len : Symbol) (seq_len : Z)
        (tr : trace) (B T C : nat) :
  pad_type self = "left" ->
  well_shaped (shapes e) self data len B T C ->
  0 < T ->
  seq_len = Z.of_nat T ->
  let conv :=
    convolved self (Some [kernel_width_of self - 1]%Z) (masked data len) in
  let out := block_output self (slice_axis conv 2 0 seq_len) in
  __call__ self data len seq_len false tr
  = (Ok out, tr ++ ops_conv ++ ["slice_axis"] ++ ops_act self)
  /\ infer_shape (shapes e) conv
     = Some [B; Z.to_nat (num_filter_of self);
             T + (Z.to_nat (kernel_width_of self) - 1)]
  /\ infer_shape (shapes e) (slice_axis conv 2 0 seq_len)
     = Some [B; Z.to_nat (num_filter_of self); T]
  /\ infer_shape (shapes e) out = Some [B; T; Z.to_nat (num_hidden_of self)]
  /\ forall (e' : env) (t : nat),
      well_shaped (shapes e') self data len B T C ->
      (forall idx, value e (conv_weight self) idx
                   = value e' (conv_weight self) idx) ->
      (forall idx, value e (conv_bias self) idx
                   = value e' (conv_bias self) idx) ->
      (forall idx, value e len idx = value e' len idx) ->
      (forall b t' c, t' <= t ->
                      value e data [b; t'; c] = value e' data [b; t'; c]) ->
      forall b h, b < B -> t < T -> h < Z.to_nat (num_hidden_of self) ->
                  value e out [b; t; h] = value e' out [b; t; h].
Proof.
  intros Hl Hws HT -> conv out.
  pose proof (left_sliced_shape (shapes e) self data len B T C Hws HT)
    as Hsliced.
  split; [apply call_left; [exact Hl | apply Hws | apply Hws] |].
  split; [apply (left_conv_shape (shapes e) self data len B T C Hws HT) |].
  split; [exact Hsliced |].
  split; [apply block_output_shape; [apply Hws | apply Hws | exact Hsliced] |].
  intros e' t Hws' Hw Hb Hlen Hdata b h Hb_lt Ht_lt Hh_lt.
  apply (block_output_congr e e' self _ B T b t h); try assumption.
  - apply Hws.
  - apply (left_sliced_shape (shapes e') self data len B T C Hws' HT).
  - intros f.
    apply (left_sliced_causal e e' self data len B T C b f t); assumption.
Qed.

Lemma left_padding_is_causal_witness :
  infer_shape (shapes (Example.tensors 2 2))
              (block_output (Example.block 2 "left" "glu")
                 (slice_axis
                    (convolved (Example.block 2 "left" "glu") (Some [1%Z])
                               (masked (Var "data") (Var "length")))
                    2 0 3))
  = Some [1; 3; 1]
  /\ value (Example.tensors 2 2)
           (block_output (Example.block 2 "left" "glu")
              (slice_axis
                 (convolved (Example.block 2 "left" "glu") (Some [1%Z])
                            (masked (Var "data") (Var "length")))
                 2 0 3))
           [0; 0; 0]
     = value (Example.tensors' 2 2)
             (block_output (Example.block 2 "left" "glu")
                (slice_axis
                   (convolved (Example.block 2 "left" "glu") (Some [1%Z])
                              (masked (Var "data") (Var "length")))
                   2 0 3))
             [0; 0; 0].
Proof.
  pose proof (left_padding_is_causal
                (Example.tensors 2 2) (Example.block 2 "left" "glu")
                (Var "data") (Var "length") 3 [] 1 3 1) as Hthm.
  destruct Hthm as (_ & _ & _ & Hshape & Hcausal);
    [reflexivity | shapes_ok | lia | reflexivity |].
  split; [exact Hshape |].
  apply (Hcausal (Example.tensors' 2 2) 0);
    [ shapes_ok | reflexivity | reflexivity | reflexivity
    | | lia | lia | vm_compute; lia ].
  intros b t' c Hle.
  destruct t' as [| t']; [reflexivity | lia].
Defined.

(** C1: for a block configured with the gated linear unit, every call that
    returns has asked the convolution for [2 * num_hidden] filters, taken
    the two halves of the convolution output along the channel axis ([split]
    into 2 on axis 1) as [gate_a] and [gate_b], and returns [gate_a]
    multiplied entry by entry with sigmoid([gate_b]), brought back to
    (batch, time, channels).  Wherever the convolution output has a shape it
    has [2 * num_hidden] channels, the returned tensor has [num_hidden]
    channels, and its entry at (b, t, h) is the convolution's at channel [h]
    times the sigmoid of the convolution's at channel [h + num_hidden].
    Such a call returns with [skip_padding] false, a kernel width and a
    hidden size of at least 1, in left mode and, for an odd kernel width up
    to 2^53 + 1, in centered mode. *)
Theorem glu_halves_convolution_output
        (self : ConvolutionBlock.t) (data len : Symbol) (seq_len : Z)
        (skip_padding : bool) (tr : trace) :
  act_type_of self = "glu" ->
  (forall out tr',
      __call__ self data len seq_len skip_padding tr = (Ok out, tr') ->
      exists pad conv,
        let c := Convolution (masked data len) (conv_weight self)
                             (conv_bias self) pad [kernel_width_of self]
                             (2 * num_hidden_of self)%Z "NCW" in
        (conv = c \/ conv = slice_axis c 2 0 seq_len)
        /\ out = swapaxes
                   (broadcast_mul (split_output conv 2 1 0)
                                  (Activation (split_output conv 2 1 1)
                                              "sigmoid"))
                   1 2
        /\ forall (R : Type) (SR : Scalar R) (e : env) (sh : shape),
            infer_shape (shapes e) conv = Some sh ->
            exists B W : nat,
              sh = [B; 2 * Z.to_nat (num_hidden_of self); W]
              /\ infer_shape (shapes e) out
                 = Some [B; W; Z.to_nat (num_hidden_of self)]
              /\ forall b t h : nat,
                  b < B -> t < W -> h < Z.to_nat (num_hidden_of self) ->
                  value e out [b; t; h]
                  = mul (value e conv [b; h; t])
                        (act_fn sigmoid
                           (value e conv
                              [b; h + Z.to_nat (num_hidden_of self); t])))
  /\ (skip_padding = false ->
      (0 < num_hidden_of self)%Z ->
      (0 < kernel_width_of self)%Z ->
      pad_type self = "left"
      \/ (pad_type self = "centered"
          /\ (kernel_width_of self mod 2 = 1)%Z
          /\ (kernel_width_of self <= 2 ^ 53 + 1)%Z) ->
      exists out tr',
        __call__ self data len seq_len skip_padding tr = (Ok out, tr')).
Proof.
  intros Hglu.
  destruct (num_filter_glu self Hglu) as [HfZ Hf].
  assert (Hsem :
    forall pad conv,
      conv = convolved self pad (masked data len)
      \/ conv = slice_axis (convolved self pad (masked data len)) 2 0 seq_len ->
      forall (R : Type) (SR : Scalar R) (e : env) (sh : shape),
        infer_shape (shapes e) conv = Some sh ->
        exists B W : nat,
          sh = [B; 2 * Z.to_nat (num_hidden_of self); W]
          /\ infer_shape (shapes e) (block_output self conv)
             = Some [B; W; Z.to_nat (num_hidden_of self)]
          /\ forall b t h : nat,
              b < B -> t < W -> h < Z.to_nat (num_hidden_of self) ->
              value e (block_output self conv) [b; t; h]
              = mul (value e conv [b; h; t])
                    (act_fn sigmoid
                            (value e conv
                                   [b; h + Z.to_nat (num_hidden_of self); t]))).
  { intros pad conv Hconv R SR e sh Hsh.
    destruct (conv_channels (shapes e) self pad (masked data len) seq_len
                            conv sh Hconv Hsh) as (B & W & ->).
    rewrite Hf in Hsh. exists B, W. split; [rewrite Hf; reflexivity |].
    split.
    - rewrite (block_output_glu self conv Hglu). cbn [infer_shape].
      rewrite (glu_shape (shapes e) conv B _ W Hsh). reflexivity.
    - intros b t h Hb Ht Hh.
      apply (block_output_glu_value e self conv B _ W b t h Hglu Hsh Hb Ht Hh). }
  assert (Hconv : forall pad,
             convolved self pad (masked data len)
             = Convolution (masked data len) (conv_weight self)
                           (conv_bias self) pad [kernel_width_of self]
                           (2 * num_hidden_of self)%Z "NCW").
  { intros pad. unfold convolved. rewrite HfZ. reflexivity. }
  split.
  - intros out tr' Hcall.
    destruct (call_returns_inv _ _ _ _ _ _ _ _ Hcall)
      as (_ & _ & _ & [(_ & -> & _) | (_ & _ & _ & -> & _)]).
    + exists (Some [kernel_width_of self - 1]%Z),
        (slice_axis (convolved self (Some [kernel_width_of self - 1]%Z)
                               (masked data len)) 2 0 seq_len).
      cbv zeta. rewrite <- Hconv.
      split; [right; reflexivity |].
      split; [apply (block_output_glu _ _ Hglu) |].
      apply (Hsem (Some [kernel_width_of self - 1]%Z)). right. reflexivity.
    + exists (Some [int_half (kernel_width_of self - 1)]),
        (convolved self (Some [int_half (kernel_width_of self - 1)])
                   (masked data len)).
      cbv zeta. rewrite <- Hconv.
      split; [left; reflexivity |].
      split; [apply (block_output_glu _ _ Hglu) |].
      apply (Hsem (Some [int_half (kernel_width_of self - 1)])).
      left. reflexivity.
  - intros -> Hh Hk Hpad.
    assert (Hact : supported_act self) by (left; exact Hglu).
    destruct Hpad as [Hl | (Hc & Hodd & Hbound)].
    + eexists. eexists. apply call_left; assumption.
    + destruct (int_half_odd (kernel_width_of self) (conj Hk Hbound) Hodd)
        as [Hover _].
      eexists. eexists. apply call_centered_odd; assumption.
Qed.

Lemma glu_halves_convolution_output_witness :
  exists out tr',
    __call__ (Example.block 2 "left" "glu") (Var "data") (Var "length")
             3 false []
    = (Ok out, tr')
    /\ infer_shape (shapes (Example.tensors 2 2)) out = Some [1; 3; 1]
    /\ value (Example.tensors 2 2) out [0; 1; 0]
       = Mul (Add (Add (Mul (Const 10) (Const 100))
                       (Add (Mul (Const 11) (Const 101)) (Const 0)))
                  (Const 1000))
             (Act sigmoid
                  (Add (Add (Mul (Const 10) (Const 110))
                            (Add (Mul (Const 11) (Const 111)) (Const 0)))
                       (Const 1001))).
Proof.
  destruct (glu_halves_convolution_output
              (Example.block 2 "left" "glu") (Var "data") (Var "length")
              3 false [])
    as (Hgraph & Hreturns); [reflexivity |].
  destruct Hreturns as (out & tr' & Hcall);
    [reflexivity | reflexivity | reflexivity | left; reflexivity |].
  exists out, tr'. split; [exact Hcall |].
  destruct (Hgraph out tr' Hcall) as (pad & conv & _ & Hout & Hsem).
  pose proof Hcall as Hrun. vm_compute in Hrun.
  injection Hrun as Hrun _. rewrite Hout in Hrun.
  injection Hrun as Hconv _. subst conv.
  destruct (Hsem term term_scalar (Example.tensors 2 2) [1; 2; 3] eq_refl)
    as (B & W & Hsh & Hshape & Hvalue).
  injection Hsh as <- <-.
  split; [exact Hshape |].
  rewrite Hvalue by (vm_compute; lia). vm_compute. reflexivity.
Defined.

(** * Further properties of the block *)

(** ** Shapes and values under a change of tensors *)

Lemma infer_shape_ext (senv senv' : string -> option shape) (s : Symbol) :
  (forall name, senv name = senv' name) ->
  infer_shape senv s = infer_shape senv' s.
Proof.
  intros Hext.
  induction s as [name | d IH d1 d2 | d IHd len IHl use_len v | d IH axes
                  | d IHd w IHw b IHb pad kernel nf layout
                  | d IH axis bg en | d IH n axis i | l IHl r IHr | d IH act];
    cbn [infer_shape].
  - apply Hext.
  - rewrite IH. reflexivity.
  - rewrite IHd, IHl. reflexivity.
  - rewrite IH. reflexivity.
  - rewrite IHd, IHw, IHb. reflexivity.
  - rewrite IH. reflexivity.
  - rewrite IH. reflexivity.
  - rewrite IHl, IHr. reflexivity.
  - rewrite IH. reflexivity.
Qed.

Lemma slice_bounds_from_zero (size : nat) (end_ : Z) (b e : nat) :
  slice_bounds size 0 end_ = Some (b, e) -> b = 0.
Proof.
  unfold slice_bounds. cbn [Z.ltb Z.compare].
  destruct (_ && _); [| discriminate]. intros [= <- _]. reflexivity.
Qed.

Section Extensionality.

Context {R : Type} {SR : Scalar R}.

(** The output at [t] reads the input at the [u] with
    [t <= u + p < t + k] only. *)
Lemma conv1d_at_window (x1 x2 wt1 wt2 b1 b2 : list nat -> R)
      (c w k p n f t : nat) :
  (forall ci u, t <= u + p -> u + p < t + k ->
                x1 [n; ci; u] = x2 [n; ci; u]) ->
  (forall idx, wt1 idx = wt2 idx) ->
  (forall idx, b1 idx = b2 idx) ->
  conv1d_at x1 wt1 b1 c w k p [n; f; t]
  = conv1d_at x2 wt2 b2 c w k p [n; f; t].
Proof.
  intros Hx Hw Hb. unfold conv1d_at. rewrite Hb. f_equal. f_equal.
  apply flat_map_ext. intros ci. apply map_ext_in. intros j Hj.
  apply in_seq in Hj. rewrite Hw. f_equal.
  unfold padded. destruct (p <=? t + j) eqn:Hle; [| reflexivity].
  cbn [andb]. destruct (_ <? _); [| reflexivity].
  apply Nat.leb_le in Hle. apply Hx; lia.
Qed.

(** Two convolutions of inputs of one shape that agree on row [n] within
    the windows of [t] agree at [(n, f, t)]. *)
Lemma convolution_window (e e' : env) x x' wt bs pad kernel nf layout
      (n f t : nat) :
  infer_shape (shapes e) x = infer_shape (shapes e') x' ->
  (forall idx, value e wt idx = value e' wt idx) ->
  (forall idx, value e bs idx = value e' bs idx) ->
  (forall k p ci u,
      kernel = [k] -> pad_amount pad = Some p ->
      t <= u + Z.to_nat p -> u + Z.to_nat p < t + Z.to_nat k ->
      value e x [n; ci; u] = value e' x' [n; ci; u]) ->
  value e (Convolution x wt bs pad kernel nf layout) [n; f; t]
  = value e' (Convolution x' wt bs pad kernel nf layout) [n; f; t].
Proof.
  intros Hsh Hw Hb Hx. cbn [value]. rewrite <- Hsh.
  destruct (infer_shape (shapes e) x) as [[| ? [| c [| w [| ? ?]]]] |];
    try reflexivity.
  destruct kernel as [| k [| ? ?]]; try reflexivity.
  destruct (pad_amount pad) as [p |]; try reflexivity.
  apply conv1d_at_window; try assumption.
  intros ci u Hlo Hhi. apply (Hx k p); auto.
Qed.

End Extensionality.

(** ** From the convolution to the block's output *)

Lemma update_middle_inv (sh : shape) (size x B H W : nat) :
  nth_error sh 1 = Some size ->
  update 1 x sh = [B; H; W] ->
  sh = [B; size; W] /\ x = H.
Proof.
  destruct sh as [| a [| b [| c [| ? ?]]]]; cbn; try discriminate.
  intros [= ->] [= -> -> ->]. split; reflexivity.
Qed.

Lemma glu_shape_inv senv c sh :
  infer_shape senv (glu c) = Some sh ->
  exists csh size,
    infer_shape senv c = Some csh /\ nth_error csh 1 = Some size
    /\ size mod 2 = 0 /\ sh = update 1 (size / 2) csh.
Proof.
  unfold glu.
  cbn [infer_shape act_of_string String.eqb Ascii.eqb Bool.eqb].
  destruct (infer_shape senv c) as [csh |]; [| discriminate].
  destruct (nth_error csh 1) as [size |] eqn:Hnth; [| discriminate].
  cbn [Nat.ltb Nat.leb andb].
  destruct (Nat.eqb_spec (size mod 2) 0) as [Hmod | Hmod]; [| discriminate].
  rewrite broadcast_shape_same. intros [= <-].
  exists csh, size. repeat split; auto.
Qed.

(** The shape of the block's output determines the batch size and the
    number of time steps of the convolution it was computed from. *)
Lemma block_output_shape_inv senv self c (B W H : nat) :
  infer_shape senv (block_output self c) = Some [B; W; H] ->
  exists F, infer_shape senv c = Some [B; F; W].
Proof.
  unfold block_output. cbn [infer_shape].
  destruct (infer_shape senv (activated self c)) as [ash |] eqn:Hact;
    [| discriminate].
  intros Hswap.
  assert (Hash : ash = [B; H; W]).
  { destruct ash as [| a [| b [| d [| ? ?]]]]; cbn in Hswap;
      try discriminate.
    injection Hswap as -> -> ->. reflexivity. }
  subst ash. unfold activated in Hact.
  destruct (String.eqb (act_type_of self) "glu").
  - destruct (glu_shape_inv senv c _ Hact)
      as (csh & size & Hc & Hnth & _ & Hup).
    symmetry in Hup.
    destruct (update_middle_inv csh size _ B H W Hnth Hup) as [-> _].
    eauto.
  - cbn [infer_shape] in Hact.
    destruct (act_of_string (act_type_of self)); [eauto | discriminate].
Qed.

Lemma block_output_none senv self c :
  infer_shape senv c = None ->
  infer_shape senv (block_output self c) = None.
Proof.
  intros Hc. unfold block_output, activated, glu.
  destruct (String.eqb (act_type_of self) "glu");
    cbn [infer_shape]; rewrite Hc.
  - reflexivity.
  - destruct (act_of_string (act_type_of self)); reflexivity.
Qed.

Section OutputLocality.

Context {R : Type} {SR : Scalar R}.

(** Two convolution outputs of one shape that agree at row [b] and time [t]
    give block outputs that agree there. *)
Lemma block_output_point (e e' : env) self c c' (B W H b t h : nat) :
  infer_shape (shapes e) (block_output self c) = Some [B; W; H] ->
  infer_shape (shapes e) c = infer_shape (shapes e') c' ->
  b < B -> t < W ->
  (forall f, value e c [b; f; t] = value e' c' [b; f; t]) ->
  value e (block_output self c) [b; t; h]
  = value e' (block_output self c') [b; t; h].
Proof.
  intros Hout Hsh Hb Ht Hval.
  destruct (block_output_shape_inv _ _ _ _ _ _ Hout) as [F Hc].
  unfold block_output, activated.
  destruct (String.eqb (act_type_of self) "glu") eqn:Hglu.
  - cbn [value swap nth_error update]. unfold glu.
    cbn [value infer_shape act_of_string String.eqb Ascii.eqb Bool.eqb].
    rewrite <- Hsh, Hc. cbn [nth_error Nat.ltb Nat.leb andb].
    destruct (Nat.eqb (F mod 2) 0); [| reflexivity].
    cbn [update broadcast_index nth_error].
    replace (if Nat.eqb B 1 then 0 else b) with b
      by (destruct (Nat.eqb_spec B 1); lia).
    replace (if Nat.eqb W 1 then 0 else t) with t
      by (destruct (Nat.eqb_spec W 1); lia).
    rewrite !Hval. reflexivity.
  - cbn [value swap nth_error update].
    destruct (act_of_string (act_type_of self)); [| reflexivity].
    rewrite Hval. reflexivity.
Qed.

(** A slice from position 0 reads the entry at the same index. *)
Lemma slice_from_zero_value (e : env) c (end_ : Z) (b f t : nat) :
  value e (slice_axis c 2 0 end_) [b; f; t]
  = match infer_shape (shapes e) c with
    | Some sh =>
        match nth_error sh 2 with
        | Some size =>
            match slice_bounds size 0 end_ with
            | Some _ => value e c [b; f; t]
            | None => zero
            end
        | None => zero
        end
    | None => zero
    end.
Proof.
  cbn [value].
  destruct (infer_shape (shapes e) c) as [sh |]; [| reflexivity].
  destruct (nth_error sh 2) as [size |]; [| reflexivity].
  cbn [nth_error].
  destruct (slice_bounds size 0 end_) as [[b0 e0] |] eqn:Hsl; [| reflexivity].
  rewrite (slice_bounds_from_zero _ _ _ _ Hsl). cbn [update].
  rewrite Nat.add_0_r. reflexivity.
Qed.

End OutputLocality.

(** ** What an output entry depends on *)

Section Locality.

Context {R : Type} {SR : Scalar R}.

Lemma conv_or_slice_window (e e' : env) self pad data len (seq_len : Z) c
      (b f t : nat) :
  c = convolved self pad (masked data len)
  \/ c = slice_axis (convolved self pad (masked data len)) 2 0 seq_len ->
  (forall name, shapes e name = shapes e' name) ->
  (forall idx, value e (conv_weight self) idx
               = value e' (conv_weight self) idx) ->
  (forall idx, value e (conv_bias self) idx
               = value e' (conv_bias self) idx) ->
  value e len [b] = value e' len [b] ->
  (forall p u ci,
      pad_amount pad = Some p ->
      t <= u + Z.to_nat p ->
      u + Z.to_nat p < t + Z.to_nat (kernel_width_of self) ->
      (Z.of_nat u < to_index (value e len [b]))%Z ->
      value e data [b; u; ci] = value e' data [b; u; ci]) ->
  infer_shape (shapes e) c = infer_shape (shapes e') c
  /\ value e c [b; f; t] = value e' c [b; f; t].
Proof.
  intros Hc Hshapes Hw Hb Hlen Hdata.
  split; [apply infer_shape_ext; exact Hshapes |].
  assert (Hconv :
            value e (convolved self pad (masked data len)) [b; f; t]
            = value e' (convolved self pad (masked data len)) [b; f; t]).
  { unfold convolved. apply convolution_window; try assumption.
    - apply infer_shape_ext. exact Hshapes.
    - intros k p ci u [= <-] Hp Hlo Hhi.
      rewrite !masked_value, <- Hlen.
      destruct (_ <? _)%Z eqn:Hvalid; [| reflexivity].
      apply (Hdata p); try assumption. apply Z.ltb_lt. exact Hvalid. }
  destruct Hc as [-> | ->]; [exact Hconv |].
  rewrite !slice_from_zero_value.
  rewrite <- (infer_shape_ext (shapes e) (shapes e') _ Hshapes).
  destruct (infer_shape (shapes e) _) as [sh |]; [| reflexivity].
  destruct (nth_error sh 2) as [size |]; [| reflexivity].
  destruct (slice_bounds size 0 seq_len); [exact Hconv | reflexivity].
Qed.

(** What one entry of the output of a call is computed from; [p] is the
    number of zeros the call puts in front of the time axis. *)
Lemma output_locality (e e' : env) self data len (seq_len : Z)
      (skip_padding : bool) (tr : trace) out (tr' : trace)
      (B W H b t h : nat) :
  __call__ self data len seq_len skip_padding tr = (Ok out, tr') ->
  (forall name, shapes e name = shapes e' name) ->
  infer_shape (shapes e) out = Some [B; W; H] ->
  b < B -> t < W ->
  (forall idx, value e (conv_weight self) idx
               = value e' (conv_weight self) idx) ->
  (forall idx, value e (conv_bias self) idx
               = value e' (conv_bias self) idx) ->
  value e len [b] = value e' len [b] ->
  (forall u ci,
      let p := if skip_padding then 0
               else if String.eqb (pad_type self) "left"
                    then Z.to_nat (kernel_width_of self - 1)
                    else Z.to_nat (int_half (kernel_width_of self - 1)) in
      t <= u + p ->
      u + p < t + Z.to_nat (kernel_width_of self) ->
      (Z.of_nat u < to_index (value e len [b]))%Z ->
      value e data [b; u; ci] = value e' data [b; u; ci]) ->
  value e out [b; t; h] = value e' out [b; t; h].
Proof.
  intros Hcall Hshapes Hout Hb Ht Hw Hbias Hlen Hdata.
  destruct (call_returns_inv _ _ _ _ _ _ _ _ Hcall)
    as (-> & _ & _ & [(Hl & -> & _) | (Hc & _ & _ & -> & _)]).
  - pose proof (fun f =>
        conv_or_slice_window e e' self (Some [kernel_width_of self - 1]%Z)
          data len seq_len _ b f t (or_intror eq_refl) Hshapes Hw Hbias Hlen)
      as Hwin.
    rewrite Hl in Hdata. cbn [String.eqb Ascii.eqb Bool.eqb] in Hdata.
    apply (block_output_point e e' self _ _ B W H); try assumption.
    + apply infer_shape_ext. exact Hshapes.
    + intros f. apply Hwin. intros p u ci [= <-]. apply Hdata.
  - pose proof (fun f =>
        conv_or_slice_window e e' self
          (Some [int_half (kernel_width_of self - 1)])
          data len seq_len _ b f t (or_introl eq_refl) Hshapes Hw Hbias Hlen)
      as Hwin.
    rewrite Hc in Hdata. cbn [String.eqb Ascii.eqb Bool.eqb] in Hdata.
    apply (block_output_point e e' self _ _ B W H); try assumption.
    + apply infer_shape_ext. exact Hshapes.
    + intros f. apply Hwin. intros p u ci [= <-]. apply Hdata.
Qed.

End Locality.

(** The entry of the output for batch example [b] at time [t] is computed
    from the weight, the bias, the length of example [b] and the data of
    example [b] at the time steps [u] with [t <= u + p < t + k], where [p]
    is the padding in front: [k - 1] in left mode and [int((k - 1) / 2)] in
    centered mode (and 0 with [skip_padding], a case no returning call is
    in). *)
Theorem output_reads_a_window {R : Type} {SR : Scalar R} (e e' : env)
        (self : ConvolutionBlock.t) (data len : Symbol) (seq_len : Z)
        (skip_padding : bool) (tr : trace) (out : Symbol) (tr' : trace)
        (B W H b t : nat) :
  __call__ self data len seq_len skip_padding tr = (Ok out, tr') ->
  (forall name, shapes e name = shapes e' name) ->
  infer_shape (shapes e) out = Some [B; W; H] ->
  b < B -> t < W ->
  (forall idx, value e (conv_weight self) idx
               = value e' (conv_weight self) idx) ->
  (forall idx, value e (conv_bias self) idx
               = value e' (conv_bias self) idx) ->
  value e len [b] = value e' len [b] ->
  (forall u c,
      let p := if skip_padding then 0
               else if String.eqb (pad_type self) "left"
                    then Z.to_nat (kernel_width_of self - 1)
                    else Z.to_nat (int_half (kernel_width_of self - 1)) in
      t <= u + p ->
      u + p < t + Z.to_nat (kernel_width_of self) ->
      value e data [b; u; c] = value e' data [b; u; c]) ->
  forall h, value e out [b; t; h] = value e' out [b; t; h].
Proof.
  intros Hcall Hshapes Hout Hb Ht Hw Hbias Hlen Hdata h.
  apply (output_locality e e' self data len seq_len skip_padding tr out tr'
                         B W H b t h); try assumption.
  intros u c p Hlo Hhi _. apply Hdata; assumption.
Qed.

Lemma output_reads_a_window_witness :
  value (Batch.tensors [[10; 11; 12]%Z] [3%Z] 2 3)
    (block_output (Example.block 3 "centered" "glu")
       (convolved (Example.block 3 "centered" "glu") (Some [1%Z])
                  (masked (Var "data") (Var "length")))) [0; 2; 0]
  = value (Batch.tensors [[77; 11; 12]%Z] [3%Z] 2 3)
    (block_output (Example.block 3 "centered" "glu")
       (convolved (Example.block 3 "centered" "glu") (Some [1%Z])
                  (masked (Var "data") (Var "length")))) [0; 2; 0].
Proof.
  apply (output_reads_a_window
           (Batch.tensors [[10; 11; 12]%Z] [3%Z] 2 3)
           (Batch.tensors [[77; 11; 12]%Z] [3%Z] 2 3)
           (Example.block 3 "centered" "glu") (Var "data") (Var "length")
           3 false []
           (block_output (Example.block 3 "centered" "glu")
              (convolved (Example.block 3 "centered" "glu") (Some [1%Z])
                         (masked (Var "data") (Var "length"))))
           ["swapaxes"; "SequenceMask"; "transpose"; "Convolution";
            "split"; "Activation"; "broadcast_mul"; "swapaxes"]
           1 3 1 0 2).
  - reflexivity.
  - intros name. unfold shapes, Batch.tensors.
    destruct (String.eqb name "data"); reflexivity.
  - reflexivity.
  - lia.
  - lia.
  - reflexivity.
  - reflexivity.
  - reflexivity.
  - intros u c p Hlo Hhi. vm_compute in p. subst p.
    destruct u as [| [| [| [| u]]]]; first [reflexivity | lia].
Defined.

(** The data beyond an example's valid length never reaches the output: two
    inputs that agree on the valid time steps of every example (with the same
    weights, bias and lengths) give the same output, in every pad mode. *)
Theorem data_beyond_length_is_ignored {R : Type} {SR : Scalar R} (e e' : env)
        (self : ConvolutionBlock.t) (data len : Symbol) (seq_len : Z)
        (skip_padding : bool) (tr : trace) (out : Symbol) (tr' : trace)
        (B W H : nat) :
  __call__ self data len seq_len skip_padding tr = (Ok out, tr') ->
  (forall name, shapes e name = shapes e' name) ->
  infer_shape (shapes e) out = Some [B; W; H] ->
  (forall idx, value e (conv_weight self) idx
               = value e' (conv_weight self) idx) ->
  (forall idx, value e (conv_bias self) idx
               = value e' (conv_bias self) idx) ->
  (forall idx, value e len idx = value e' len idx) ->
  (forall b u c,
      (Z.of_nat u < to_index (value e len [b]))%Z ->
      value e data [b; u; c] = value e' data [b; u; c]) ->
  forall b t h, b < B -> t < W ->
                value e out [b; t; h] = value e' out [b; t; h].
Proof.
  intros Hcall Hshapes Hout Hw Hbias Hlen Hdata b t h Hb Ht.
  apply (output_locality e e' self data len seq_len skip_padding tr out tr'
                         B W H b t h); try assumption.
  - apply Hlen.
  - intros u c p _ _ Hvalid. apply Hdata. exact Hvalid.
Qed.

Lemma data_beyond_length_is_ignored_witness :
  value (Batch.tensors [[10; 11; 12]%Z] [2%Z] 2 2)
    (block_output (Example.block 2 "left" "glu")
       (slice_axis
          (convolved (Example.block 2 "left" "glu") (Some [1%Z])
                     (masked (Var "data") (Var "length")))
          2 0 3)) [0; 2; 0]
  = value (Batch.tensors [[10; 11; 77]%Z] [2%Z] 2 2)
    (block_output (Example.block 2 "left" "glu")
       (slice_axis
          (convolved (Example.block 2 "left" "glu") (Some [1%Z])
                     (masked (Var "data") (Var "length")))
          2 0 3)) [0; 2; 0].
Proof.
  apply (data_beyond_length_is_ignored
           (Batch.tensors [[10; 11; 12]%Z] [2%Z] 2 2)
           (Batch.tensors [[10; 11; 77]%Z] [2%Z] 2 2)
           (Example.block 2 "left" "glu") (Var "data") (Var "length")
           3 false []
           (block_output (Example.block 2 "left" "glu")
              (slice_axis
                 (convolved (Example.block 2 "left" "glu") (Some [1%Z])
                            (masked (Var "data") (Var "length")))
                 2 0 3))
           ["swapaxes"; "SequenceMask"; "transpose"; "Convolution";
            "slice_axis"; "split"; "Activation"; "broadcast_mul"; "swapaxes"]
           1 3 1).
  - reflexivity.
  - intros name. unfold shapes, Batch.tensors.
    destruct (String.eqb name "data"); reflexivity.
  - reflexivity.
  - reflexivity.
  - reflexivity.
  - reflexivity.
  - intros b u c Hvalid.
    set (n := to_index _) in Hvalid.
    destruct b as [| [| b]]; vm_compute in n; subst n; [| lia | lia].
    destruct u as [| [| u]]; [reflexivity | reflexivity | lia].
  - lia.
  - lia.
Defined.

(** The examples of a batch do not mix: the output for example [b] is
    computed from the data and the length of example [b] alone (and the
    weight and bias), whatever the other examples hold. *)
Theorem batch_examples_are_independent {R : Type} {SR : Scalar R}
        (e e' : env)
        (self : ConvolutionBlock.t) (data len : Symbol) (seq_len : Z)
        (skip_padding : bool) (tr : trace) (out : Symbol) (tr' : trace)
        (B W H b : nat) :
  __call__ self data len seq_len skip_padding tr = (Ok out, tr') ->
  (forall name, shapes e name = shapes e' name) ->
  infer_shape (shapes e) out = Some [B; W; H] ->
  b < B ->
  (forall idx, value e (conv_weight self) idx
               = value e' (conv_weight self) idx) ->
  (forall idx, value e (conv_bias self) idx
               = value e' (conv_bias self) idx) ->
  value e len [b] = value e' len [b] ->
  (forall u c, value e data [b; u; c] = value e' data [b; u; c]) ->
  forall t h, t < W -> value e out [b; t; h] = value e' out [b; t; h].
Proof.
  intros Hcall Hshapes Hout Hb Hw Hbias Hlen Hdata t h Ht.
  apply (output_locality e e' self data len seq_len skip_padding tr out tr'
                         B W H b t h); try assumption.
  intros u c p _ _ _. apply Hdata.
Qed.

Lemma batch_examples_are_independent_witness :
  value (Batch.tensors [[10; 11; 12]; [20; 21; 22]]%Z [3; 2]%Z 2 2)
       
    (block_output (Example.block 2 "left" "glu")
       (slice_axis
          (convolved (Example.block 2 "left" "glu") (Some [1%Z])
                     (masked (Var "data") (Var "length")))
          2 0 3)) [0; 1; 0]
  = value (Batch.tensors [[10; 11; 12]; [99; 98; 97]]%Z [3; 1]%Z 2 2)
         
    (block_output (Example.block 2 "left" "glu")
       (slice_axis
          (convolved (Example.block 2 "left" "glu") (Some [1%Z])
                     (masked (Var "data") (Var "length")))
          2 0 3)) [0; 1; 0].
Proof.
  apply (batch_examples_are_independent
           (Batch.tensors [[10; 11; 12]; [20; 21; 22]]%Z [3; 2]%Z 2 2)
           (Batch.tensors [[10; 11; 12]; [99; 98; 97]]%Z [3; 1]%Z 2 2)
           (Example.block 2 "left" "glu") (Var "data") (Var "length")
           3 false []
           (block_output (Example.block 2 "left" "glu")
              (slice_axis
                 (convolved (Example.block 2 "left" "glu") (Some [1%Z])
                            (masked (Var "data") (Var "length")))
                 2 0 3))
           ["swapaxes"; "SequenceMask"; "transpose"; "Convolution";
            "slice_axis"; "split"; "Activation"; "broadcast_mul"; "swapaxes"]
           2 3 1 0).
  - reflexivity.
  - intros name. unfold shapes, Batch.tensors.
    destruct (String.eqb name "data"); [reflexivity |].
    destruct (String.eqb name "length"); reflexivity.
  - reflexivity.
  - lia.
  - reflexivity.
  - reflexivity.
  - reflexivity.
  - intros u c. reflexivity.
  - lia.
Defined.

(** ** The activation other than the gated linear unit *)

(** For a block configured with an activation [a] of MXNet other than
    "glu", every call that returns has asked the convolution for
    [num_hidden] filters (not twice as many), has invoked no [split], and
    returns the activation applied entry by entry to the convolution output,
    brought back to (batch, time, channels).  Such a call returns with
    [skip_padding] false, a kernel width and a hidden size of at least 1, in
    left mode and, for an odd kernel width up to 2^53 + 1, in centered
    mode. *)
Theorem plain_activation_is_elementwise
        (self : ConvolutionBlock.t) (data len : Symbol) (seq_len : Z)
        (skip_padding : bool) (tr : trace) (a : act_kind) :
  act_type_of self <> "glu" ->
  act_of_string (act_type_of self) = Some a ->
  (forall out tr',
      __call__ self data len seq_len skip_padding tr = (Ok out, tr') ->
      exists pad conv ops,
        let c := Convolution (masked data len) (conv_weight self)
                             (conv_bias self) pad [kernel_width_of self]
                             (num_hidden_of self) "NCW" in
        (conv = c \/ conv = slice_axis c 2 0 seq_len)
        /\ out = swapaxes (Activation conv (act_type_of self)) 1 2
        /\ tr' = tr ++ ops
        /\ ~ In "split" ops
        /\ forall (R : Type) (SR : Scalar R) (e : env) (sh : shape),
            infer_shape (shapes e) conv = Some sh ->
            exists B W : nat,
              sh = [B; Z.to_nat (num_hidden_of self); W]
              /\ infer_shape (shapes e) out
                 = Some [B; W; Z.to_nat (num_hidden_of self)]
              /\ forall b t h : nat,
                  value e out [b; t; h] = act_fn a (value e conv [b; h; t]))
  /\ (skip_padding = false ->
      (0 < num_hidden_of self)%Z ->
      (0 < kernel_width_of self)%Z ->
      pad_type self = "left"
      \/ (pad_type self = "centered"
          /\ (kernel_width_of self mod 2 = 1)%Z
          /\ (kernel_width_of self <= 2 ^ 53 + 1)%Z) ->
      exists out tr',
        __call__ self data len seq_len skip_padding tr = (Ok out, tr')).
Proof.
  intros Hglu Ha. apply String.eqb_neq in Hglu.
  assert (Hnf : num_filter_of self = num_hidden_of self).
  { unfold num_filter_of. rewrite Hglu. reflexivity. }
  assert (Hout : forall c,
             block_output self c
             = swapaxes (Activation c (act_type_of self)) 1 2).
  { intros c. unfold block_output, activated. rewrite Hglu. reflexivity. }
  assert (Hconv : forall pad,
             convolved self pad (masked data len)
             = Convolution (masked data len) (conv_weight self)
                           (conv_bias self) pad [kernel_width_of self]
                           (num_hidden_of self) "NCW").
  { intros pad. unfold convolved. rewrite Hnf. reflexivity. }
  assert (Hact : ops_act self = ["Activation"; "swapaxes"]).
  { unfold ops_act. rewrite Hglu. reflexivity. }
  assert (Hsem :
    forall pad conv,
      conv = convolved self pad (masked data len)
      \/ conv = slice_axis (convolved self pad (masked data len)) 2 0 seq_len ->
      forall (R : Type) (SR : Scalar R) (e : env) (sh : shape),
        infer_shape (shapes e) conv = Some sh ->
        exists B W : nat,
          sh = [B; Z.to_nat (num_hidden_of self); W]
          /\ infer_shape (shapes e) (block_output self conv)
             = Some [B; W; Z.to_nat (num_hidden_of self)]
          /\ forall b t h : nat,
              value e (block_output self conv) [b; t; h]
              = act_fn a (value e conv [b; h; t])).
  { intros pad conv Hc R SR e sh Hsh.
    destruct (conv_channels (shapes e) self pad (masked data len) seq_len
                            conv sh Hc Hsh) as (B & W & ->).
    rewrite Hnf in Hsh. exists B, W. split; [rewrite Hnf; reflexivity |].
    rewrite Hout. split.
    - cbn [infer_shape]. rewrite Ha, Hsh. reflexivity.
    - intros b t h. cbn [value swap nth_error update]. rewrite Ha.
      reflexivity. }
  split.
  - intros out tr' Hcall.
    destruct (call_returns_inv _ _ _ _ _ _ _ _ Hcall)
      as (_ & _ & _ & [(_ & -> & ->) | (_ & _ & _ & -> & ->)]).
    + exists (Some [kernel_width_of self - 1]%Z),
        (slice_axis (convolved self (Some [kernel_width_of self - 1]%Z)
                               (masked data len)) 2 0 seq_len),
        (ops_conv ++ ["slice_axis"] ++ ops_act self).
      cbv zeta. rewrite <- Hconv.
      split; [right; reflexivity |].
      split; [apply Hout |]. split; [reflexivity |].
      split; [rewrite Hact; cbn; intuition discriminate |].
      apply (Hsem (Some [kernel_width_of self - 1]%Z)). right. reflexivity.
    + exists (Some [int_half (kernel_width_of self - 1)]),
        (convolved self (Some [int_half (kernel_width_of self - 1)])
                   (masked data len)),
        (ops_conv ++ ops_act self).
      cbv zeta. rewrite <- Hconv.
      split; [left; reflexivity |].
      split; [apply Hout |]. split; [reflexivity |].
      split; [rewrite Hact; cbn; intuition discriminate |].
      apply (Hsem (Some [int_half (kernel_width_of self - 1)])).
      left. reflexivity.
  - intros -> Hh Hk Hpad.
    assert (Hsupp : supported_act self) by (right; rewrite Ha; discriminate).
    destruct Hpad as [Hl | (Hc & Hodd & Hbound)].
    + eexists. eexists. apply call_left; assumption.
    + destruct (int_half_odd (kernel_width_of self) (conj Hk Hbound) Hodd)
        as [Hover _].
      eexists. eexists. apply call_centered_odd; assumption.
Qed.

Lemma plain_activation_is_elementwise_witness :
  exists out tr',
    __call__ (Example.block 2 "left" "relu") (Var "data") (Var "length")
             3 false []
    = (Ok out, tr')
    /\ ~ In "split" tr'
    /\ infer_shape (shapes (Example.tensors 1 2)) out = Some [1; 3; 1]
    /\ value (Example.tensors 1 2) out [0; 1; 0]
       = Act relu (Add (Add (Mul (Const 10) (Const 100))
                            (Add (Mul (Const 11) (Const 101)) (Const 0)))
                       (Const 1000)).
Proof.
  destruct (plain_activation_is_elementwise
              (Example.block 2 "left" "relu") (Var "data") (Var "length")
              3 false [] relu)
    as (Hgraph & Hreturns); [discriminate | reflexivity |].
  destruct Hreturns as (out & tr' & Hcall);
    [reflexivity | reflexivity | reflexivity | left; reflexivity |].
  exists out, tr'. split; [exact Hcall |].
  destruct (Hgraph out tr' Hcall)
    as (pad & conv & ops & _ & Hout & Htr & Hsplit & Hsem).
  split; [rewrite Htr; exact Hsplit |].
  pose proof Hcall as Hrun. vm_compute in Hrun.
  injection Hrun as Hrun _. rewrite Hout in Hrun.
  injection Hrun as Hconv. subst conv.
  destruct (Hsem term term_scalar (Example.tensors 1 2) [1; 1; 3] eq_refl)
    as (B & W & Hsh & Hshape & Hentry).
  injection Hsh as <- <-.
  split; [exact Hshape |].
  rewrite Hentry. vm_compute. reflexivity.
Defined.

(** ** When a call fails *)

(** A call raises an error of its own making only before it invokes any
    operator: the invalid-configuration error exactly for pad mode
    "centered" with an even kernel width, [ValueError] exactly for a pad
    mode that is neither "left" nor "centered", [OverflowError] for a
    centered odd kernel width too large for the division, all with
    [skip_padding] false.  Every other failure is MXNet's, and comes after
    [swapaxes], [SequenceMask] and [transpose] have been invoked. *)
Theorem call_fails_before_or_inside_the_graph
        (self : ConvolutionBlock.t) (data len : Symbol) (seq_len : Z)
        (skip_padding : bool) (tr : trace) (err : exn) (tr' : trace) :
  __call__ self data len seq_len skip_padding tr = (Raise err, tr') ->
  (tr' = tr /\ skip_padding = false
   /\ ((pad_type self = "centered"
        /\ (kernel_width_of self mod 2 <> 1)%Z
        /\ err = InvalidConfigurationError
                   ("Only odd kernel widths supported, but got "
                      ++ format_d (kernel_width_of self))%string)
       \/ (pad_type self <> "left"
           /\ pad_type self <> "centered"
           /\ err = ValueError ("Unknown pad type " ++ pad_type self)%string)
       \/ (pad_type self = "centered"
           /\ (kernel_width_of self mod 2 = 1)%Z
           /\ err = OverflowError
                      "integer division result too large for a float")))
  \/ (err = MXNetError
      /\ exists rest,
          tr' = tr ++ ["swapaxes"; "SequenceMask"; "transpose"] ++ rest).
Proof.
  rewrite call_unfold. cbv zeta.
  assert (Hgraph :
    forall (r : Symbol) (ops : trace),
      (if (num_filter_of self <=? 0)%Z
       then (Raise MXNetError, tr ++ ops_masking)
       else if String.eqb (act_type_of self) "glu"
            then (Ok r, tr ++ (ops_conv ++ ops) ++ ops_act self)
            else match act_of_string (act_type_of self) with
                 | Some _ => (Ok r, tr ++ (ops_conv ++ ops) ++ ops_act self)
                 | None => (Raise MXNetError, tr ++ ops_conv ++ ops)
                 end)
      = (Raise err, tr') ->
      err = MXNetError
      /\ exists rest,
          tr' = tr ++ ["swapaxes"; "SequenceMask"; "transpose"] ++ rest).
  { intros r ops.
    destruct (num_filter_of self <=? 0)%Z.
    - intros [= <- <-]. split; [reflexivity |]. exists [].
      rewrite app_nil_r. reflexivity.
    - destruct (String.eqb (act_type_of self) "glu"); [discriminate |].
      destruct (act_of_string (act_type_of self)); [discriminate |].
      intros [= <- <-]. split; [reflexivity |].
      exists ("Convolution" :: ops). reflexivity. }
  destruct skip_padding.
  - intros [= <- <-]. right. split; [reflexivity |]. exists [].
    rewrite app_nil_r. reflexivity.
  - destruct (String.eqb_spec (pad_type self) "left") as [Hl | Hl].
    + intros Hcall. right. exact (Hgraph _ ["slice_axis"] Hcall).
    + destruct (String.eqb_spec (pad_type self) "centered") as [Hc | Hc].
      * destruct (Z.eqb_spec (kernel_width_of self mod 2) 1)
          as [Hodd | Heven].
        -- destruct (true_div_overflows (kernel_width_of self - 1)).
           ++ intros [= <- <-]. left. auto 8.
           ++ intros Hcall. right. exact (Hgraph _ [] Hcall).
        -- intros [= <- <-]. left. auto 8.
      * intros [= <- <-]. left. auto 8.
Qed.

Lemma call_fails_before_or_inside_the_graph_witness :
  (["Variable"; "Variable"] = ["Variable"; "Variable"] /\ false = false
   /\ ((pad_type (Example.block 4 "centered" "glu") = "centered"
        /\ (kernel_width_of (Example.block 4 "centered" "glu") mod 2 <> 1)%Z
        /\ InvalidConfigurationError
             "Only odd kernel widths supported, but got 4"
           = InvalidConfigurationError
               ("Only odd kernel widths supported, but got "
                  ++ format_d (kernel_width_of
                                 (Example.block 4 "centered" "glu")))%string)
       \/ (pad_type (Example.block 4 "centered" "glu") <> "left"
           /\ pad_type (Example.block 4 "centered" "glu") <> "centered"
           /\ InvalidConfigurationError
                "Only odd kernel widths supported, but got 4"
              = ValueError
                  ("Unknown pad type "
                     ++ pad_type (Example.block 4 "centered" "glu"))%string)
       \/ (pad_type (Example.block 4 "centered" "glu") = "centered"
           /\ (kernel_width_of (Example.block 4 "centered" "glu") mod 2 = 1)%Z
           /\ InvalidConfigurationError
                "Only odd kernel widths supported, but got 4"
              = OverflowError
                  "integer division result too large for a float")))
  \/ (InvalidConfigurationError "Only odd kernel widths supported, but got 4"
      = MXNetError
      /\ exists rest,
          ["Variable"; "Variable"]
          = ["Variable"; "Variable"]
              ++ ["swapaxes"; "SequenceMask"; "transpose"] ++ rest).
Proof.
  apply (call_fails_before_or_inside_the_graph
           (Example.block 4 "centered" "glu") (Var "data") (Var "length")
           3 false ["Variable"; "Variable"]).
  reflexivity.
Defined.

(** ** The left mode in detail *)

(** In left mode every position that is kept, [t < seq_len], is the
    convolution of the input with [k - 1] zeros in front only: tap [j] reads
    the masked input at [t + j - (k - 1)], or zero before the start of the
    sequence.  The zeros the convolution adds behind the input are read by
    the positions that are sliced off and by no other. *)
Theorem left_mode_pads_only_in_front {R : Type} {SR : Scalar R} (e : env)
        (self : ConvolutionBlock.t) (data len : Symbol) (seq_len : Z)
        (tr : trace) (B T C b f t : nat) :
  pad_type self = "left" ->
  well_shaped (shapes e) self data len B T C ->
  seq_len = Z.of_nat T ->
  t < T ->
  let k := Z.to_nat (kernel_width_of self) in
  let conv :=
    slice_axis
      (convolved self (Some [kernel_width_of self - 1]%Z) (masked data len))
      2 0 seq_len in
  fst (__call__ self data len seq_len false tr) = Ok (block_output self conv)
  /\ value e conv [b; f; t]
     = add (sum (flat_map
                   (fun c =>
                      map (fun j =>
                             mul (if k - 1 <=? t + j
                                  then value e (masked data len)
                                             [b; c; t + j - (k - 1)]
                                  else zero)
                                 (value e (conv_weight self) [f; c; j]))
                          (seq 0 k))
                   (seq 0 C)))
           (value e (conv_bias self) [f]).
Proof.
  intros Hl Hws -> Ht k conv. split.
  - rewrite (call_left _ _ _ _ _ Hl (ws_hidden _ _ _ _ _ _ _ Hws)
                       (ws_act _ _ _ _ _ _ _ Hws)).
    reflexivity.
  - unfold conv.
    rewrite (left_sliced_value e self data len B T C b f t Hws) by lia.
    unfold conv1d_at. fold k. f_equal. f_equal.
    apply flat_map_ext. intros c. apply map_ext_in. intros j Hj.
    apply in_seq in Hj. f_equal. unfold padded.
    replace (t + j <? k - 1 + T) with true
      by (symmetry; apply Nat.ltb_lt; lia).
    rewrite andb_true_r. reflexivity.
Qed.

Lemma left_mode_pads_only_in_front_witness :
  value (Example.tensors 1 2)
        (slice_axis
           (convolved (Example.block 2 "left" "relu") (Some [1%Z])
                      (masked (Var "data") (Var "length")))
           2 0 3)
        [0; 0; 0]
  = Add (Add (Mul (Const 0) (Const 100))
             (Add (Mul (Const 10) (Const 101)) (Const 0)))
        (Const 1000).
Proof.
  destruct (left_mode_pads_only_in_front
              (Example.tensors 1 2) (Example.block 2 "left" "relu")
              (Var "data") (Var "length") 3 [] 1 3 1 0 0 0)
    as [_ Hvalue];
    [reflexivity | shapes_ok | reflexivity | lia |].
  refine (eq_trans Hvalue _). vm_compute. reflexivity.
Defined.

(** The [seq_len] argument is never compared with the data.  It is not used
    at all with [skip_padding] or outside left mode; in left mode it is the
    end of the slice, so the output has [seq_len] time steps whatever the
    data has: fewer than the data when [seq_len] is smaller, up to [k - 1]
    more when it is larger, and no shape at all when [seq_len] is 0 or
    exceeds the data by more than [k - 1]. *)
Theorem seq_len_sets_left_output_length (senv : string -> option shape)
        (self : ConvolutionBlock.t) (data len : Symbol) (tr : trace)
        (skip_padding : bool) (B T C n : nat) :
  (skip_padding = true \/ pad_type self <> "left" ->
   forall seq_len seq_len' : Z,
     __call__ self data len seq_len skip_padding tr
     = __call__ self data len seq_len' skip_padding tr)
  /\ (pad_type self = "left" ->
      well_shaped senv self data len B T C ->
      0 < T ->
      exists out tr',
        __call__ self data len (Z.of_nat n) false tr = (Ok out, tr')
        /\ infer_shape senv out
           = if (0 <? n) && (n <=? T + (Z.to_nat (kernel_width_of self) - 1))
             then Some [B; n; Z.to_nat (num_hidden_of self)]
             else None).
Proof.
  split.
  - intros Hmode seq_len seq_len'. rewrite !call_unfold. cbv zeta.
    destruct skip_padding; [reflexivity |].
    destruct Hmode as [Hs | Hl]; [discriminate |].
    apply String.eqb_neq in Hl. rewrite Hl. reflexivity.
  - intros Hl Hws HT. eexists. eexists.
    split; [apply call_left; [exact Hl | apply Hws | apply Hws] |].
    pose proof (left_conv_shape senv self data len B T C Hws HT) as Hconv.
    destruct ((0 <? n) && (n <=? T + (Z.to_nat (kernel_width_of self) - 1)))
      eqn:Hn.
    + apply andb_true_iff in Hn. destruct Hn as [Hpos Hle].
      apply Nat.ltb_lt in Hpos. apply Nat.leb_le in Hle.
      apply block_output_shape; [apply Hws | apply Hws |].
      cbn [infer_shape]. rewrite Hconv. cbn [nth_error].
      rewrite slice_bounds_prefix by assumption.
      cbn [update]. rewrite Nat.sub_0_r. reflexivity.
    + apply block_output_none. cbn [infer_shape]. rewrite Hconv.
      cbn [nth_error]. unfold slice_bounds.
      replace (Z.of_nat n <? 0)%Z with false
        by (symmetry; apply Z.ltb_ge; lia).
      cbn [Z.ltb Z.compare Z.leb andb].
      apply andb_false_iff in Hn.
      destruct (0 <? Z.of_nat n)%Z eqn:Hpos;
        destruct (Z.of_nat n
                  <=? Z.of_nat (T + (Z.to_nat (kernel_width_of self) - 1)))%Z
                 eqn:Hle; try reflexivity.
      apply Z.ltb_lt in Hpos. apply Z.leb_le in Hle.
      destruct Hn as [Hn | Hn];
        [apply Nat.ltb_ge in Hn | apply Nat.leb_gt in Hn]; lia.
Qed.

Lemma seq_len_sets_left_output_length_witness :
  (__call__ (Example.block 3 "centered" "glu") (Var "data") (Var "length")
            3 false []
   = __call__ (Example.block 3 "centered" "glu") (Var "data") (Var "length")
              7 false [])
  /\ exists out tr',
      __call__ (Example.block 3 "left" "glu") (Var "data") (Var "length")
               5 false []
      = (Ok out, tr')
      /\ infer_shape (shapes (Example.tensors 2 3)) out = Some [1; 5; 1].
Proof.
  split.
  - apply (seq_len_sets_left_output_length
             (shapes (Example.tensors 2 3))
             (Example.block 3 "centered" "glu") (Var "data") (Var "length")
             [] false 1 3 1 5).
    right. discriminate.
  - apply (seq_len_sets_left_output_length
             (shapes (Example.tensors 2 3))
             (Example.block 3 "left" "glu") (Var "data") (Var "length")
             [] false 1 3 1 5);
      [reflexivity | shapes_ok | lia].
Defined.

(** ** Kernel width 1 *)

Lemma well_shaped_same_config senv s1 s2 data len (B T C : nat) :
  config s1 = config s2 ->
  conv_weight s1 = conv_weight s2 ->
  conv_bias s1 = conv_bias s2 ->
  well_shaped senv s1 data len B T C ->
  well_shaped senv s2 data len B T C.
Proof.
  intros Hcfg Hw Hb [Hd Hl Hws Hbs Hk Hh Ha].
  unfold supported_act, num_filter_of, act_type_of, kernel_width_of,
    num_hidden_of in *.
  rewrite Hcfg, ?Hw, ?Hb in *.
  constructor; unfold supported_act, num_filter_of, act_type_of,
    kernel_width_of, num_hidden_of; assumption.
Qed.

Lemma block_output_same_config s1 s2 c :
  config s1 = config s2 -> block_output s1 c = block_output s2 c.
Proof.
  intros Hcfg. unfold block_output, activated, act_type_of.
  rewrite Hcfg. reflexivity.
Qed.

(** With a kernel of width 1 every call that returns computes the
    convolution without padding, sliced or not. *)
Lemma unit_kernel_call {R : Type} {SR : Scalar R} (e : env) self data len
      (seq_len : Z) (skip_padding : bool) (tr : trace) out (tr' : trace)
      (B T C : nat) :
  kernel_width_of self = 1%Z ->
  well_shaped (shapes e) self data len B T C ->
  0 < T ->
  seq_len = Z.of_nat T ->
  __call__ self data len seq_len skip_padding tr = (Ok out, tr') ->
  exists c,
    out = block_output self c
    /\ infer_shape (shapes e) c
       = Some [B; Z.to_nat (num_filter_of self); T]
    /\ forall b f t,
        value e c [b; f; t]
        = value e (convolved self (Some [0%Z]) (masked data len)) [b; f; t].
Proof.
  intros Hk Hws HT -> Hcall.
  assert (Hplain :
            infer_shape (shapes e)
                        (convolved self (Some [0%Z]) (masked data len))
            = Some [B; Z.to_nat (num_filter_of self); T]).
  { rewrite (convolved_shape (shapes e) self data len B T C (Some [0%Z]) 0
                             Hws eq_refl)
      by (rewrite ?Hk; cbn; lia).
    rewrite Hk. do 4 f_equal. cbn. lia. }
  destruct (call_returns_inv _ _ _ _ _ _ _ _ Hcall)
    as (_ & _ & _ & [(_ & -> & _) | (_ & _ & _ & -> & _)]).
  - rewrite Hk. change (1 - 1)%Z with 0%Z.
    eexists. split; [reflexivity |]. split.
    + cbn [infer_shape]. cbn [infer_shape] in Hplain. rewrite Hplain.
      cbn [nth_error]. rewrite slice_bounds_prefix by lia.
      cbn [update]. rewrite Nat.sub_0_r. reflexivity.
    + intros b f t. rewrite slice_from_zero_value, Hplain. cbn [nth_error].
      rewrite slice_bounds_prefix by lia. reflexivity.
  - rewrite Hk. change (int_half (1 - 1)) with 0%Z.
    eexists. split; [reflexivity |]. split; [exact Hplain | reflexivity].
Qed.

(** With a kernel of width 1 the pad mode makes no difference: two blocks
    with the same configuration, weight and bias, one in left and one in
    centered mode or both in the same, return tensors of the same shape
    (batch, seq_len, num_hidden) with the same entries. *)
Theorem unit_kernel_makes_pad_mode_irrelevant {R : Type} {SR : Scalar R}
        (e : env) (self self' : ConvolutionBlock.t) (data len : Symbol)
        (seq_len : Z) (tr tr' : trace) (out out' : Symbol)
        (tr1 tr1' : trace) (B T C : nat) :
  config self = config self' ->
  conv_weight self = conv_weight self' ->
  conv_bias self = conv_bias self' ->
  kernel_width_of self = 1%Z ->
  well_shaped (shapes e) self data len B T C ->
  0 < T ->
  seq_len = Z.of_nat T ->
  __call__ self data len seq_len false tr = (Ok out, tr1) ->
  __call__ self' data len seq_len false tr' = (Ok out', tr1') ->
  infer_shape (shapes e) out = Some [B; T; Z.to_nat (num_hidden_of self)]
  /\ infer_shape (shapes e) out' = Some [B; T; Z.to_nat (num_hidden_of self)]
  /\ forall b t h, b < B -> t < T ->
                   value e out [b; t; h] = value e out' [b; t; h].
Proof.
  intros Hcfg Hw Hb Hk Hws HT Hlen Hcall Hcall'.
  pose proof (well_shaped_same_config _ _ _ _ _ _ _ _ Hcfg Hw Hb Hws) as Hws'.
  assert (Hk' : kernel_width_of self' = 1%Z).
  { unfold kernel_width_of in *. rewrite <- Hcfg. exact Hk. }
  assert (Hnf : num_filter_of self' = num_filter_of self).
  { unfold num_filter_of, act_type_of, num_hidden_of. rewrite Hcfg.
    reflexivity. }
  assert (Hconv : convolved self' (Some [0%Z]) (masked data len)
                  = convolved self (Some [0%Z]) (masked data len)).
  { unfold convolved, kernel_width_of. rewrite Hnf, Hcfg, Hw, Hb.
    reflexivity. }
  destruct (unit_kernel_call e self data len seq_len false tr out tr1
                             B T C Hk Hws HT Hlen Hcall)
    as (c & -> & Hc & Hval).
  destruct (unit_kernel_call e self' data len seq_len false tr' out'
                             tr1' B T C Hk' Hws' HT Hlen Hcall')
    as (c' & -> & Hc' & Hval').
  rewrite Hnf in Hc'. rewrite Hconv in Hval'.
  rewrite <- (block_output_same_config self self' c' Hcfg).
  pose proof (block_output_shape (shapes e) self c B T
                (ws_act _ _ _ _ _ _ _ Hws) (ws_hidden _ _ _ _ _ _ _ Hws) Hc)
    as Hout.
  split; [exact Hout |]. split.
  - apply block_output_shape; [apply Hws | apply Hws | exact Hc'].
  - intros b t h Hb_lt Ht_lt.
    apply (block_output_point e e self c c' B T _ b t h Hout);
      try assumption.
    + rewrite Hc, Hc'. reflexivity.
    + intros f. rewrite Hval, Hval'. reflexivity.
Qed.

Lemma unit_kernel_makes_pad_mode_irrelevant_witness :
  value (Example.tensors 2 1)
        (block_output (Example.block 1 "left" "glu")
           (slice_axis
              (convolved (Example.block 1 "left" "glu") (Some [0%Z])
                         (masked (Var "data") (Var "length")))
              2 0 3))
        [0; 1; 0]
  = value (Example.tensors 2 1)
          (block_output (Example.block 1 "centered" "glu")
             (convolved (Example.block 1 "centered" "glu") (Some [0%Z])
                        (masked (Var "data") (Var "length"))))
          [0; 1; 0].
Proof.
  destruct (unit_kernel_makes_pad_mode_irrelevant
              (Example.tensors 2 1)
              (Example.block 1 "left" "glu")
              (Example.block 1 "centered" "glu")
              (Var "data") (Var "length") 3 [] []
              (block_output (Example.block 1 "left" "glu")
                 (slice_axis
                    (convolved (Example.block 1 "left" "glu") (Some [0%Z])
                               (masked (Var "data") (Var "length")))
                    2 0 3))
              (block_output (Example.block 1 "centered" "glu")
                 (convolved (Example.block 1 "centered" "glu") (Some [0%Z])
                            (masked (Var "data") (Var "length"))))
              ["swapaxes"; "SequenceMask"; "transpose"; "Convolution";
               "slice_axis"; "split"; "Activation"; "broadcast_mul";
               "swapaxes"]
              ["swapaxes"; "SequenceMask"; "transpose"; "Convolution";
               "split"; "Activation"; "broadcast_mul"; "swapaxes"]
              1 3 1)
    as (_ & _ & Hvalue);
    [ reflexivity | reflexivity | reflexivity | reflexivity | shapes_ok
    | lia | reflexivity | reflexivity | reflexivity | ].
  apply Hvalue; lia.
Defined.

(** ** The variables of the graph *)

Lemma first_occurrences_In (seen l : list string) (v : string) :
  In v (first_occurrences seen l) <-> In v l /\ ~ In v seen.
Proof.
  revert seen. induction l as [| x l IH]; intros seen; cbn.
  - tauto.
  - destruct (str_in x seen) eqn:Hseen.
    + apply str_in_In in Hseen. rewrite IH. split.
      * tauto.
      * intros [[-> | Hin] Hnot]; [contradiction | tauto].
    + assert (Hnot : ~ In x seen).
      { intros Hin. apply str_in_In in Hin. congruence. }
      cbn. rewrite IH. cbn. split.
      * intros [-> | [Hin Hno]]; tauto.
      * intros [[-> | Hin] Hno]; [tauto |].
        destruct (string_dec x v) as [-> | Hne]; [tauto |].
        right. tauto.
Qed.

Lemma list_arguments_variables s (v : string) :
  In v (list_arguments s) <-> In v (variables s).
Proof.
  unfold list_arguments. rewrite first_occurrences_In. cbn. tauto.
Qed.

Lemma list_arguments_block_output self c (v : string) :
  In v (list_arguments (block_output self c)) <-> In v (list_arguments c).
Proof.
  rewrite !list_arguments_variables.
  unfold block_output, activated, glu.
  destruct (String.eqb (act_type_of self) "glu"); cbn [variables].
  - rewrite in_app_iff. tauto.
  - tauto.
Qed.

Lemma list_arguments_convolved self pad data len (v : string) :
  In v (list_arguments (convolved self pad (masked data len)))
  <-> In v (list_arguments data) \/ In v (list_arguments len)
      \/ In v (list_arguments (conv_weight self))
      \/ In v (list_arguments (conv_bias self)).
Proof.
  rewrite !list_arguments_variables.
  unfold convolved, masked. cbn [variables].
  rewrite !in_app_iff. tauto.
Qed.

Lemma list_arguments_slice_axis c axis begin end_ (v : string) :
  In v (list_arguments (slice_axis c axis begin end_))
  <-> In v (list_arguments c).
Proof. rewrite !list_arguments_variables. reflexivity. Qed.

(** A block built by the constructor and then called gives a graph that
    reads the variables of the data and of the lengths and the block's own
    two, named [<prefix>conv_weight] and [<prefix>conv_bias], and no other;
    the call itself creates no variable. *)
Theorem graph_reads_inputs_and_own_parameters
        (cfg : ConvolutionConfig.t) (pad_type_ prefix_ : string)
        (tr0 : trace) (self : ConvolutionBlock.t) (tr1 : trace)
        (data len : Symbol) (seq_len : Z) (skip_padding : bool)
        (tr : trace) (out : Symbol) (tr' : trace) :
  ConvolutionBlock.__init__ cfg pad_type_ prefix_ tr0 = (Ok self, tr1) ->
  __call__ self data len seq_len skip_padding tr = (Ok out, tr') ->
  (forall v,
      In v (list_arguments out)
      <-> In v (list_arguments data) \/ In v (list_arguments len)
          \/ v = (prefix_ ++ "conv_weight")%string
          \/ v = (prefix_ ++ "conv_bias")%string)
  /\ exists ops, tr' = tr ++ ops /\ ~ In "Variable" ops.
Proof.
  intros Hinit Hcall.
  assert (Hself : conv_weight self = Var (prefix_ ++ "conv_weight")%string
                  /\ conv_bias self = Var (prefix_ ++ "conv_bias")%string).
  { unfold ConvolutionBlock.__init__, bind, ret, mx_sym.Variable_, invoke
      in Hinit.
    injection Hinit as <- _. split; reflexivity. }
  destruct Hself as [Hw Hb].
  assert (Hops : forall pre, ~ In "Variable" pre ->
                             ~ In "Variable" (ops_conv ++ pre ++ ops_act self)).
  { intros pre Hpre Hin. rewrite !in_app_iff in Hin.
    unfold ops_conv, ops_act in Hin. destruct (String.eqb _ _) in Hin;
      cbn in Hin; intuition discriminate. }
  assert (Hargs : forall pad c v,
             c = convolved self pad (masked data len)
             \/ c = slice_axis (convolved self pad (masked data len))
                               2 0 seq_len ->
             In v (list_arguments c)
             <-> In v (list_arguments data) \/ In v (list_arguments len)
                 \/ v = (prefix_ ++ "conv_weight")%string
                 \/ v = (prefix_ ++ "conv_bias")%string).
  { intros pad c v [-> | ->]; rewrite ?list_arguments_slice_axis;
      rewrite list_arguments_convolved, Hw, Hb; cbn; intuition congruence. }
  destruct (call_returns_inv _ _ _ _ _ _ _ _ Hcall)
    as (_ & _ & _ & [(_ & -> & ->) | (_ & _ & _ & -> & ->)]).
  - split.
    + intros v. rewrite list_arguments_block_output.
      apply (Hargs (Some [kernel_width_of self - 1]%Z)). right. reflexivity.
    + eexists. split; [reflexivity |]. apply (Hops ["slice_axis"]).
      cbn. intuition discriminate.
  - split.
    + intros v. rewrite list_arguments_block_output.
      apply (Hargs (Some [int_half (kernel_width_of self - 1)])).
      left. reflexivity.
    + eexists. split; [reflexivity |]. apply (Hops []). intros [].
Qed.

Lemma graph_reads_inputs_and_own_parameters_witness :
  (forall v,
      In v (list_arguments
              (block_output (Example.block 3 "centered" "glu")
                 (convolved (Example.block 3 "centered" "glu") (Some [1%Z])
                            (masked (Var "data") (Var "length")))))
      <-> In v ["data"] \/ In v ["length"]
          \/ v = "enc_conv_weight" \/ v = "enc_conv_bias")
  /\ exists ops,
      ["swapaxes"; "SequenceMask"; "transpose"; "Convolution";
       "split"; "Activation"; "broadcast_mul"; "swapaxes"]
      = [] ++ ops
      /\ ~ In "Variable" ops.
Proof.
  apply (graph_reads_inputs_and_own_parameters
           (ConvolutionConfig.Build 3 1 "glu") "centered" "enc_" []
           (Example.block 3 "centered" "glu") ["Variable"; "Variable"]
           (Var "data") (Var "length") 3 false []);
    reflexivity.
Defined.

(** ** Sizes that are not positive *)


